(** * StackIt: a minimal Q&A forum backend

    A shallow embedding of the two route modules of the backend,
    [auth.py] (the account directory) and [questions.py] (the question
    catalog), followed by the properties of their handlers.

    Conventions of the embedding.
    - The module-level lists [mock_users] and [mock_questions] are process
      state: every handler takes the current list and returns the list left
      behind together with its HTTP response.
    - A handler body runs inside [try ... except Exception], so a Python
      exception becomes a [Failure 500] response.
    - Python [int] is [Z]; [//] is floor division, which is [Z.div], and
      raises on a zero divisor.
    - A Python [str] is held as its UTF-8 encoding, on which equality,
      the substring test [in] and the lexicographic order [<] agree with
      those on code points.  [str.lower] follows the Unicode tables of the
      runtime and is not a character-wise map: it is the function [lower]
      of the class [Py.StrLower], over which the development is generic;
      the sample data is ASCII text, on which [str.lower] is the instance
      [Py.ascii_lower].
    - Request bodies and stored records are the JSON objects of the HTTP
      interface with their declared field types; a field that is absent
      (or [null]) is [None], and so is a body that is absent (an empty
      object, falsy as well, has all its fields [None] and meets the same
      answer).  The handlers are given on such a body; [body] lists what
      else [request.get_json()] can hand over, and [Auth.register_request]
      is [register] on all of it. *)

From Stdlib Require Import ZArith List String Ascii Bool Lia Permutation.
From Stdlib Require QArith Qround.
Import ListNotations.
Open Scope string_scope.
Open Scope Z_scope.

(** ** HTTP responses *)

(** [jsonify(body), status] on the success paths and
    [jsonify({'error': {'message': m}}), status] on the failure paths. *)
Inductive response (A : Type) : Type :=
| Success (status : Z) (body : A)
| Failure (status : Z) (message : string).
Arguments Success {A} status body.
Arguments Failure {A} status message.

Definition status_of {A} (r : response A) : Z :=
  match r with
  | Success s _ => s
  | Failure s _ => s
  end.

(** What [request.get_json()] hands to a handler: it raises, or returns a
    truthy value that is no JSON object (a non-empty array or string, a
    non-zero number, [true]) and so has no [get], or returns an object
    ([Some]) or a falsy value ([None]). *)
Inductive body (A : Type) : Type :=
| Raised (message : string)
| NotObject (type_name : string)
| Parsed (data : option A).
Arguments Raised {A} message.
Arguments NotObject {A} type_name.
Arguments Parsed {A} data.

(** [str(e)] of the [AttributeError] that [data.get] raises on a value of
    the type named [t]. *)
Definition no_get (t : string) : string :=
  "'" ++ t ++ "' object has no attribute 'get'".

(** [data['k']] on a body without the key [k] raises [KeyError], which the
    handler turns into a 500. *)
Definition key_error {A} (k : string) : response A :=
  Failure 500 k.

(** ** The Python fragments the handlers rely on *)

Module Py.

(** Truth value of a string: the empty string is falsy. *)
Definition truthy (s : string) : bool :=
  match s with
  | EmptyString => false
  | String _ _ => true
  end.

(** [d.get(k)] used as a condition: an absent key gives [None], falsy. *)
Definition truthy_field (f : option string) : bool :=
  match f with
  | None => false
  | Some s => truthy s
  end.

(** [s.lower()], whatever the Unicode tables of the runtime make of it;
    it keeps the empty string empty. *)
Class StrLower : Type := {
  lower : string -> string;
  lower_empty : lower "" = ""
}.

(** [s.lower()] on ASCII text: the letters [A]..[Z] go to [a]..[z], every
    other character stays. *)
Definition lower_char (c : ascii) : ascii :=
  let n := nat_of_ascii c in
  if (Nat.leb 65 n && Nat.leb n 90)%bool then ascii_of_nat (n + 32) else c.

Fixpoint lower_ascii (s : string) : string :=
  match s with
  | EmptyString => EmptyString
  | String c s' => String (lower_char c) (lower_ascii s')
  end.

Definition ascii_lower : StrLower :=
  {| lower := lower_ascii; lower_empty := eq_refl |}.

(** [s.startswith(p)] *)
Fixpoint startswith (p s : string) : bool :=
  match p, s with
  | EmptyString, _ => true
  | String _ _, EmptyString => false
  | String a p', String b s' => (Ascii.eqb a b && startswith p' s')%bool
  end.

(** [sub in s] on strings. *)
Fixpoint contains (sub s : string) : bool :=
  (startswith sub s ||
   match s with
   | EmptyString => false
   | String _ s' => contains sub s'
   end)%bool.

(** Index normalisation of a slice bound against a sequence of length [n]:
    a negative bound counts from the end, then the bound is clamped into
    [0..n]. *)
Definition clamp (n i : Z) : Z :=
  if i <? 0 then Z.max 0 (i + n) else Z.min i n.

(** [l[start:stop]] *)
Definition slice {A} (l : list A) (start stop : Z) : list A :=
  let n := Z.of_nat (List.length l) in
  let s := clamp n start in
  let e := clamp n stop in
  firstn (Z.to_nat (e - s)) (skipn (Z.to_nat s) l).

(** [list.sort(key=key, reverse=reverse)].  The sort is stable, also with
    [reverse=True] (elements with equal keys keep their original order), so
    its result is the one of the stable insertion sort below for the order
    [before]. *)
Section Sort.
Context {A K : Type}.
Variable kleb : K -> K -> bool.
Variable key : A -> K.
Variable reverse : bool.

Definition before (x y : A) : bool :=
  if reverse then kleb (key y) (key x) else kleb (key x) (key y).

Fixpoint insert (x : A) (l : list A) : list A :=
  match l with
  | [] => [x]
  | y :: l' => if before x y then x :: y :: l' else y :: insert x l'
  end.

Fixpoint sort (l : list A) : list A :=
  match l with
  | [] => []
  | x :: l' => insert x (sort l')
  end.
End Sort.

End Py.

(** ** auth.py: the account directory *)

Module Auth.

(** A stored user: the dict with the keys ['id'], ['email'], ['name'],
    ['password'], ['reputation'] and ['avatar']. *)
Record user : Type := {
  id : Z;
  email : string;
  name : string;
  password : string;
  reputation : Z;
  avatar : option string
}.

(** The values a user dict holds, and the dict as [u.items()] yields it,
    in insertion order. *)
Inductive value : Type :=
| VNone
| VInt (z : Z)
| VStr (s : string).

Definition items (u : user) : list (string * value) :=
  [ ("id", VInt (id u));
    ("email", VStr (email u));
    ("name", VStr (name u));
    ("password", VStr (password u));
    ("reputation", VInt (reputation u));
    ("avatar", match avatar u with None => VNone | Some a => VStr a end) ].

(** [d.get(k)] on a dict given by its items. *)
Fixpoint get (k : string) (d : list (string * value)) : option value :=
  match d with
  | [] => None
  | (k', v) :: d' => if String.eqb k' k then Some v else get k d'
  end.

Definition mock_users : list user :=
  [ {| id := 1; email := "demo@stackit.com"; name := "Demo User";
       password := "demo123"; reputation := 1250; avatar := None |} ].

(** The JSON body of a register or login request; login ignores
    [data_name]. *)
Record credentials : Type := {
  data_email : option string;
  data_password : option string;
  data_name : option string
}.

Record tokens : Type := {
  accessToken : string;
  refreshToken : string
}.

Record session : Type := {
  session_user : list (string * value);
  session_tokens : tokens
}.

Definition mock_tokens : tokens :=
  {| accessToken := "mock_access_token";
     refreshToken := "mock_refresh_token" |}.

(** [{k: v for k, v in u.items() if k != 'password'}] *)
Definition without_password (d : list (string * value))
  : list (string * value) :=
  filter (fun kv => negb (String.eqb (fst kv) "password")) d.

(** [next((u for u in mock_users if u['email'] == e), None)] *)
Definition find_by_email (e : string) (users : list user) : option user :=
  find (fun u => String.eqb (email u) e) users.

(** [register] on what [request.get_json()] returned, an object or a
    falsy value. *)
Definition register (users : list user) (data : option credentials)
  : list user * response session :=
  match data with
  | None =>
      (users, Failure 400 "Email, password, and name are required")
  | Some d =>
      if (negb (Py.truthy_field (data_email d))
          || negb (Py.truthy_field (data_password d))
          || negb (Py.truthy_field (data_name d)))%bool
      then (users, Failure 400 "Email, password, and name are required")
      else
        match data_email d, data_name d, data_password d with
        | Some e, Some n, Some p =>
            match find_by_email e users with
            | Some _ =>
                (users, Failure 409 "User with this email already exists")
            | None =>
                let new_user :=
                  {| id := Z.of_nat (List.length users) + 1;
                     email := e;
                     name := n;
                     password := p;
                     reputation := 0;
                     avatar := None |} in
                let user_data := without_password (items new_user) in
                ((users ++ [new_user])%list,
                 Success 201 {| session_user := user_data;
                                session_tokens := mock_tokens |})
            end
        | _, _, _ => (users, key_error "email")
        end
  end.

(** [register] on every body: an exception of [request.get_json()] or of
    [data.get] is caught by the handler and answered 500 with its text;
    the directory has not been touched by then. *)
Definition register_request (users : list user) (b : body credentials)
  : list user * response session :=
  match b with
  | Raised message => (users, Failure 500 message)
  | NotObject type_name => (users, Failure 500 (no_get type_name))
  | Parsed data => register users data
  end.

Definition login (users : list user) (data : option credentials)
  : list user * response session :=
  match data with
  | None => (users, Failure 400 "Email and password are required")
  | Some d =>
      if (negb (Py.truthy_field (data_email d))
          || negb (Py.truthy_field (data_password d)))%bool
      then (users, Failure 400 "Email and password are required")
      else
        match data_email d, data_password d with
        | Some e, Some p =>
            match find_by_email e users with
            | None => (users, Failure 401 "Invalid email or password")
            | Some u =>
                if negb (String.eqb (password u) p)
                then (users, Failure 401 "Invalid email or password")
                else
                  let user_data := without_password (items u) in
                  (users,
                   Success 200 {| session_user := user_data;
                                  session_tokens := mock_tokens |})
            end
        | _, _ => (users, key_error "email")
        end
  end.

Definition logout (users : list user) : list user * response string :=
  (users, Success 200 "Logged out successfully").

Definition get_profile (users : list user)
  : list user * response (list (string * value)) :=
  match users with
  | u :: _ => (users, Success 200 (without_password (items u)))
  | [] => (users, Failure 404 "User not found")
  end.

End Auth.

(** ** questions.py: the question catalog *)

Module Questions.

Record author_ref : Type := {
  author_id : Z;
  author_name : string;
  author_reputation : Z
}.

Record tag : Type := {
  tag_id : Z;
  tag_name : string
}.

Record question : Type := {
  id : Z;
  title : string;
  description : string;
  author : author_ref;
  tags : list tag;
  voteCount : Z;
  answerCount : Z;
  viewCount : Z;
  isResolved : bool;
  createdAt : string;
  updatedAt : string
}.

Definition mock_questions : list question :=
  [ {| id := 1;
       title := "How to implement authentication in React?";
       description := "I'm building a React application and need to implement user authentication. What are the best practices for handling login, logout, and protecting routes?";
       author := {| author_id := 1; author_name := "John Doe";
                    author_reputation := 1250 |};
       tags := [ {| tag_id := 1; tag_name := "react" |};
                 {| tag_id := 2; tag_name := "authentication" |} ];
       voteCount := 15;
       answerCount := 3;
       viewCount := 245;
       isResolved := true;
       createdAt := "2024-01-15T10:30:00Z";
       updatedAt := "2024-01-16T14:20:00Z" |};
    {| id := 2;
       title := "Best practices for Node.js API design";
       description := "What are the recommended patterns and practices for designing RESTful APIs in Node.js? I'm particularly interested in error handling, validation, and security.";
       author := {| author_id := 2; author_name := "Jane Smith";
                    author_reputation := 890 |};
       tags := [ {| tag_id := 3; tag_name := "nodejs" |};
                 {| tag_id := 4; tag_name := "api" |};
                 {| tag_id := 5; tag_name := "rest" |} ];
       voteCount := 8;
       answerCount := 2;
       viewCount := 156;
       isResolved := false;
       createdAt := "2024-01-14T16:45:00Z";
       updatedAt := "2024-01-14T16:45:00Z" |};
    {| id := 3;
       title := "Database optimization techniques";
       description := "My application is experiencing slow database queries. What are some effective techniques for optimizing database performance in a web application?";
       author := {| author_id := 3; author_name := "Mike Johnson";
                    author_reputation := 2100 |};
       tags := [ {| tag_id := 6; tag_name := "database" |};
                 {| tag_id := 7; tag_name := "optimization" |};
                 {| tag_id := 8; tag_name := "performance" |} ];
       voteCount := 22;
       answerCount := 5;
       viewCount := 387;
       isResolved := true;
       createdAt := "2024-01-13T09:15:00Z";
       updatedAt := "2024-01-15T11:30:00Z" |} ].

Record pagination : Type := {
  page : Z;
  limit : Z;
  total : Z;
  totalPages : Z;
  hasPrev : bool;
  hasNext : bool
}.

Record listing : Type := {
  questions : list question;
  listing_pagination : pagination
}.

(** The list objects [get_questions] works on.  The name
    [filtered_questions] is bound to one of two objects: the module-level
    list itself, or the list built by the comprehension.  [list.sort] sorts
    the object its receiver names, in place. *)
Inductive list_ref : Type :=
| ref_mock_questions
| ref_comprehension.

Record heap : Type := {
  at_mock_questions : list question;
  at_comprehension : list question
}.

Definition deref (h : heap) (r : list_ref) : list question :=
  match r with
  | ref_mock_questions => at_mock_questions h
  | ref_comprehension => at_comprehension h
  end.

Definition assign (h : heap) (r : list_ref) (l : list question) : heap :=
  match r with
  | ref_mock_questions =>
      {| at_mock_questions := l; at_comprehension := at_comprehension h |}
  | ref_comprehension =>
      {| at_mock_questions := at_mock_questions h; at_comprehension := l |}
  end.

(** [r.sort(key=key, reverse=reverse)] *)
Definition sort_in_place {K} (kleb : K -> K -> bool) (key : question -> K)
  (reverse : bool) (h : heap) (r : list_ref) : heap :=
  assign h r (Py.sort kleb key reverse (deref h r)).

Section Listing.
Context {str_lower : Py.StrLower}.

(** The condition of the comprehension. *)
Definition matches (search : string) (q : question) : bool :=
  (Py.contains (Py.lower search) (Py.lower (title q))
   || Py.contains (Py.lower search) (Py.lower (description q)))%bool.

(** [str(e)] of the [ZeroDivisionError] that [//] raises. *)
Definition zero_division : string := "integer division or modulo by zero".

(** [get_questions], on the query parameters as read from [request.args]
    ([page] and [limit] already through [int], the defaults being
    [1], [20], the empty string, ["createdAt"] and ["desc"]). *)
Definition get_questions (catalog : list question) (page limit : Z)
  (search sort_by sort_order : string) : list question * response listing :=
  let h := {| at_mock_questions := catalog; at_comprehension := [] |} in
  let filtered_questions := ref_mock_questions in
  let '(h, filtered_questions) :=
    if Py.truthy search
    then (assign h ref_comprehension
            (filter (matches search) (deref h ref_mock_questions)),
          ref_comprehension)
    else (h, filtered_questions) in
  let reverse := String.eqb sort_order "desc" in
  let h :=
    if String.eqb sort_by "voteCount"
    then sort_in_place Z.leb voteCount reverse h filtered_questions
    else if String.eqb sort_by "answerCount"
    then sort_in_place Z.leb answerCount reverse h filtered_questions
    else if String.eqb sort_by "viewCount"
    then sort_in_place Z.leb viewCount reverse h filtered_questions
    else sort_in_place String.leb createdAt reverse h filtered_questions in
  let total := Z.of_nat (List.length (deref h filtered_questions)) in
  let start := (page - 1) * limit in
  let end_ := start + limit in
  let questions := Py.slice (deref h filtered_questions) start end_ in
  if limit =? 0
  then (at_mock_questions h, Failure 500 zero_division)
  else
    let total_pages := (total + limit - 1) / limit in
    let has_prev := 1 <? page in
    let has_next := page <? total_pages in
    (at_mock_questions h,
     Success 200
       {| questions := questions;
          listing_pagination :=
            {| page := page;
               limit := limit;
               total := total;
               totalPages := total_pages;
               hasPrev := has_prev;
               hasNext := has_next |} |}).

End Listing.

(** [next((q for q in mock_questions if q['id'] == question_id), None)];
    a question dict is never empty, so [not question] holds exactly when
    the scan found none. *)
Definition get_question (catalog : list question) (question_id : Z)
  : list question * response question :=
  match find (fun q => id q =? question_id) catalog with
  | None => (catalog, Failure 404 "Question not found")
  | Some question => (catalog, Success 200 question)
  end.

(** The JSON body of a create request; [data_tags] is [None] when the key
    ['tags'] is absent. *)
Record submission : Type := {
  data_title : option string;
  data_description : option string;
  data_tags : option (list tag)
}.

Definition demo_author : author_ref :=
  {| author_id := 1; author_name := "Current User";
     author_reputation := 100 |}.

Definition demo_timestamp : string := "2024-01-16T12:00:00Z".

Definition create_question (catalog : list question)
  (data : option submission) : list question * response question :=
  match data with
  | None => (catalog, Failure 400 "Title and description are required")
  | Some d =>
      if (negb (Py.truthy_field (data_title d))
          || negb (Py.truthy_field (data_description d)))%bool
      then (catalog, Failure 400 "Title and description are required")
      else
        match data_title d, data_description d with
        | Some t, Some ds =>
            let new_question :=
              {| id := Z.of_nat (List.length catalog) + 1;
                 title := t;
                 description := ds;
                 author := demo_author;
                 tags := match data_tags d with
                         | Some ts => ts
                         | None => []
                         end;
                 voteCount := 0;
                 answerCount := 0;
                 viewCount := 0;
                 isResolved := false;
                 createdAt := demo_timestamp;
                 updatedAt := demo_timestamp |} in
            ((catalog ++ [new_question])%list, Success 201 new_question)
        | _, _ => (catalog, key_error "title")
        end
  end.

Record health : Type := {
  status : string;
  service : string;
  version : string
}.

Definition health_check : response health :=
  Success 200 {| status := "healthy";
                 service := "StackIt Q&A Platform";
                 version := "1.0.0" |}.

End Questions.

(** ** Specification vocabulary *)

(** On ASCII text: some contiguous part of [t] is [s] up to the case of
    its letters. *)
Definition occurs_up_to_case (s t : string) : Prop :=
  exists pre mid post,
    t = pre ++ mid ++ post /\ Py.lower_ascii mid = Py.lower_ascii s.

Section Vocabulary.
Context {str_lower : Py.StrLower}.

(** [s] occurs in [t] case-insensitively: the lower-cased [s] is a
    contiguous part of the lower-cased [t]. *)
Definition occurs_ci (s t : string) : Prop :=
  exists pre post, Py.lower t = pre ++ Py.lower s ++ post.

(** The search predicate of the listing. *)
Definition search_hit (s : string) (q : Questions.question) : Prop :=
  occurs_ci s (Questions.title q) \/ occurs_ci s (Questions.description q).

(** The order of two questions under the key that [sortBy] names. *)
Definition key_le (sort_by : string) (a b : Questions.question) : Prop :=
  if String.eqb sort_by "voteCount"
  then Questions.voteCount a <= Questions.voteCount b
  else if String.eqb sort_by "answerCount"
  then Questions.answerCount a <= Questions.answerCount b
  else if String.eqb sort_by "viewCount"
  then Questions.viewCount a <= Questions.viewCount b
  else String.leb (Questions.createdAt a) (Questions.createdAt b) = true.

(** [n] is the ceiling of the quotient [a / b], for a positive [b]. *)
Definition is_ceiling (a b n : Z) : Prop :=
  (n - 1) * b < a <= n * b.

(** A required field of a request body counts as missing when it is absent
    or empty. *)
Definition missing (f : option string) : Prop :=
  f = None \/ f = Some "".

(** [d] shows every entry of the stored record [u] but the password. *)
Definition public_view (u : Auth.user) (d : list (string * Auth.value))
  : Prop :=
  (forall k v, In (k, v) d <-> In (k, v) (Auth.items u) /\ k <> "password")
  /\ Auth.get "password" d = None.

(** The questions the filter step keeps, and the list after the sort
    step, as plain functions of the catalog. *)
Definition kept (catalog : list Questions.question) (search : string)
  : list Questions.question :=
  if Py.truthy search
  then filter (Questions.matches search) catalog
  else catalog.

Definition arranged (l : list Questions.question)
  (sort_by sort_order : string) : list Questions.question :=
  let reverse := String.eqb sort_order "desc" in
  if String.eqb sort_by "voteCount"
  then Py.sort Z.leb Questions.voteCount reverse l
  else if String.eqb sort_by "answerCount"
  then Py.sort Z.leb Questions.answerCount reverse l
  else if String.eqb sort_by "viewCount"
  then Py.sort Z.leb Questions.viewCount reverse l
  else Py.sort String.leb Questions.createdAt reverse l.

(** The request body in which every empty field is left out. *)
Definition absent_if_empty (f : option string) : option string :=
  match f with
  | Some EmptyString => None
  | _ => f
  end.

Definition credentials_without_empty (d : Auth.credentials)
  : Auth.credentials :=
  {| Auth.data_email := absent_if_empty (Auth.data_email d);
     Auth.data_password := absent_if_empty (Auth.data_password d);
     Auth.data_name := absent_if_empty (Auth.data_name d) |}.

Definition submission_without_empty (d : Questions.submission)
  : Questions.submission :=
  {| Questions.data_title := absent_if_empty (Questions.data_title d);
     Questions.data_description :=
       absent_if_empty (Questions.data_description d);
     Questions.data_tags := Questions.data_tags d |}.

(** The ids [1], ..., [n] in order: what counting ids from the length of
    the list gives when nothing is ever removed. *)
Definition first_ids (n : nat) : list Z := map Z.of_nat (seq 1 n).

(** The page a listing returns (no page when the listing fails). *)
Definition page_of (catalog : list Questions.question) (page limit : Z)
  (search sort_by sort_order : string) : list Questions.question :=
  match snd (Questions.get_questions catalog page limit search sort_by
               sort_order) with
  | Success _ body => Questions.questions body
  | Failure _ _ => []
  end.

(** Two questions have the same key under [sortBy]. *)
Definition same_key (sort_by : string) (a b : Questions.question) : bool :=
  if String.eqb sort_by "voteCount"
  then Questions.voteCount a =? Questions.voteCount b
  else if String.eqb sort_by "answerCount"
  then Questions.answerCount a =? Questions.answerCount b
  else if String.eqb sort_by "viewCount"
  then Questions.viewCount a =? Questions.viewCount b
  else String.eqb (Questions.createdAt a) (Questions.createdAt b).

(** Every two neighbours of the list are in the order [R]. *)
Inductive chain {A : Type} (R : A -> A -> Prop) : list A -> Prop :=
| chain_nil : chain R []
| chain_one x : chain R [x]
| chain_cons x y l : R x y -> chain R (y :: l) -> chain R (x :: y :: l).

End Vocabulary.

(** ** Strings *)

Section Properties.
Context {str_lower : Py.StrLower}.

Lemma truthy_false s : Py.truthy s = false <-> s = "".
Proof. destruct s; simpl; split; congruence. Qed.

Lemma truthy_field_false f : Py.truthy_field f = false <-> missing f.
Proof.
  unfold missing. destruct f as [s|]; simpl.
  - rewrite truthy_false. split.
    + intros ->. now right.
    + intros [H|H]; congruence.
  - split; auto.
Qed.

Lemma truthy_field_true f :
  Py.truthy_field f = true <-> exists s, f = Some s /\ s <> "".
Proof.
  destruct f as [s|]; simpl.
  - split.
    + intros H. exists s. split; [reflexivity|]. intros ->. discriminate.
    + intros (s' & [= <-] & Hs). destruct s; [congruence | reflexivity].
  - split; [discriminate | intros (s & H & _); discriminate].
Qed.

Lemma startswith_spec p : forall s,
  Py.startswith p s = true <-> exists post, s = p ++ post.
Proof.
  induction p as [|a p IH]; intros s; simpl.
  - split; [intros _; now exists s | reflexivity].
  - destruct s as [|b s].
    + split; [discriminate | intros (post & H); discriminate].
    + rewrite andb_true_iff, Ascii.eqb_eq, IH. split.
      * intros (-> & post & ->). now exists post.
      * intros (post & [= -> ->]). split; [reflexivity | now exists post].
Qed.

Lemma contains_spec sub : forall s,
  Py.contains sub s = true <-> exists pre post, s = pre ++ sub ++ post.
Proof.
  induction s as [|c s IH]; simpl; rewrite orb_true_iff, startswith_spec.
  - split.
    + intros [(post & H)|H]; [|discriminate]. now exists "", post.
    + intros (pre & post & H). left. destruct pre; simpl in H.
      * now exists post.
      * discriminate.
  - rewrite IH. split.
    + intros [(post & H)|(pre & post & ->)].
      * now exists "", post.
      * now exists (String c pre), post.
    + intros (pre & post & H). destruct pre as [|c' pre]; simpl in H.
      * left. now exists post.
      * right. injection H as -> ->. now exists pre, post.
Qed.

Lemma lower_app a : forall b,
  Py.lower_ascii (a ++ b) = Py.lower_ascii a ++ Py.lower_ascii b.
Proof. induction a; intros b; simpl; [reflexivity | now rewrite IHa]. Qed.

Lemma lower_split a : forall t b,
  Py.lower_ascii t = a ++ b ->
  exists x y,
    t = x ++ y /\ Py.lower_ascii x = a /\ Py.lower_ascii y = b.
Proof.
  induction a as [|c a IH]; intros t b H; simpl in H.
  - now exists "", t.
  - destruct t as [|d t]; simpl in H; [discriminate|].
    injection H as Hc Ht. destruct (IH _ _ Ht) as (x & y & -> & Hx & Hy).
    exists (String d x), y. simpl. now rewrite Hc, Hx.
Qed.

(** On ASCII text the case-insensitive occurrence is the occurrence of a
    part that differs from [s] in the case of letters only. *)
Lemma occurs_ci_ascii s t :
  @occurs_ci Py.ascii_lower s t <-> occurs_up_to_case s t.
Proof.
  unfold occurs_ci, occurs_up_to_case. cbn [Py.lower Py.ascii_lower]. split.
  - intros (pre' & post' & E).
    destruct (lower_split _ _ _ E) as (pre & rest & -> & _ & Hrest).
    destruct (lower_split _ _ _ Hrest) as (mid & post & -> & Hmid & _).
    now exists pre, mid, post.
  - intros (pre & mid & post & -> & Hmid).
    exists (Py.lower_ascii pre), (Py.lower_ascii post).
    now rewrite !lower_app, Hmid.
Qed.

Lemma contains_lower_spec s t :
  Py.contains (Py.lower s) (Py.lower t) = true <-> occurs_ci s t.
Proof. apply contains_spec. Qed.

Lemma matches_spec s q :
  Questions.matches s q = true <-> search_hit s q.
Proof.
  unfold Questions.matches, search_hit.
  now rewrite orb_true_iff, !contains_lower_spec.
Qed.

Lemma matches_empty q : Questions.matches "" q = true.
Proof.
  unfold Questions.matches. rewrite Py.lower_empty.
  now destruct (Py.lower (Questions.title q)).
Qed.

(** ** Sorting *)

Lemma chain_tail {A} (R : A -> A -> Prop) x l :
  chain R (x :: l) -> chain R l.
Proof. intros H. inversion H; subst; [constructor | assumption]. Qed.

Lemma chain_app_inv {A} (R : A -> A -> Prop) l1 : forall l2,
  chain R (l1 ++ l2)%list -> chain R l2.
Proof.
  induction l1 as [|x l1 IH]; intros l2 H; simpl in H; [exact H|].
  apply IH. now apply chain_tail in H.
Qed.

Lemma chain_neighbours {A} (R : A -> A -> Prop) l1 a b l2 :
  chain R (l1 ++ a :: b :: l2)%list -> R a b.
Proof. intros H. apply chain_app_inv in H. now inversion H. Qed.

Section SortFacts.
Context {A K : Type}.
Variable kleb : K -> K -> bool.
Variable key : A -> K.
Variable reverse : bool.
Hypothesis kleb_total : forall x y, kleb x y = true \/ kleb y x = true.

Let R (x y : A) : Prop := Py.before kleb key reverse x y = true.

Lemma before_total x y :
  Py.before kleb key reverse x y = false ->
  Py.before kleb key reverse y x = true.
Proof.
  unfold Py.before. destruct reverse; intros H.
  - destruct (kleb_total (key y) (key x)); congruence.
  - destruct (kleb_total (key x) (key y)); congruence.
Qed.

Lemma insert_perm x l :
  Permutation (x :: l) (Py.insert kleb key reverse x l).
Proof.
  induction l as [|y l IH]; simpl; [reflexivity|].
  destruct (Py.before kleb key reverse x y); [reflexivity|].
  rewrite perm_swap. now apply perm_skip.
Qed.

Lemma sort_perm l : Permutation l (Py.sort kleb key reverse l).
Proof.
  induction l as [|x l IH]; simpl; [constructor|].
  rewrite <- insert_perm. now apply perm_skip.
Qed.

Lemma sort_length l :
  List.length (Py.sort kleb key reverse l) = List.length l.
Proof. symmetry. apply Permutation_length, sort_perm. Qed.

Lemma sort_In x l : In x (Py.sort kleb key reverse l) <-> In x l.
Proof.
  split; apply Permutation_in; [symmetry|]; apply sort_perm.
Qed.

Lemma insert_chain x l :
  chain R l -> chain R (Py.insert kleb key reverse x l).
Proof.
  induction 1 as [|y|y z l Hyz Hl IH]; simpl.
  - constructor.
  - destruct (Py.before kleb key reverse x y) eqn:E.
    + constructor; [exact E | constructor].
    + constructor; [now apply before_total | constructor].
  - destruct (Py.before kleb key reverse x y) eqn:E.
    + constructor; [exact E|]. now constructor.
    + simpl in IH. destruct (Py.before kleb key reverse x z) eqn:E'.
      * constructor; [now apply before_total | exact IH].
      * constructor; [exact Hyz | exact IH].
Qed.

Lemma sort_chain l : chain R (Py.sort kleb key reverse l).
Proof.
  induction l as [|x l IH]; simpl; [constructor | now apply insert_chain].
Qed.

Lemma sort_neighbours l l1 a b l2 :
  Py.sort kleb key reverse l = (l1 ++ a :: b :: l2)%list ->
  Py.before kleb key reverse a b = true.
Proof.
  intros H. apply (chain_neighbours R l1 a b l2). rewrite <- H.
  apply sort_chain.
Qed.
End SortFacts.

Lemma Zleb_total x y : (x <=? y) = true \/ (y <=? x) = true.
Proof. destruct (Z.leb_spec x y); [now left | right; apply Z.leb_le; lia]. Qed.

Lemma arranged_perm l sort_by sort_order :
  Permutation l (arranged l sort_by sort_order).
Proof.
  unfold arranged.
  destruct (String.eqb sort_by "voteCount"); [apply sort_perm|].
  destruct (String.eqb sort_by "answerCount"); [apply sort_perm|].
  destruct (String.eqb sort_by "viewCount"); apply sort_perm.
Qed.

Lemma arranged_length l sort_by sort_order :
  List.length (arranged l sort_by sort_order) = List.length l.
Proof. symmetry. apply Permutation_length, arranged_perm. Qed.

Lemma arranged_neighbours l sort_by sort_order l1 a b l2 :
  arranged l sort_by sort_order = (l1 ++ a :: b :: l2)%list ->
  if String.eqb sort_order "desc" then key_le sort_by b a
  else key_le sort_by a b.
Proof.
  unfold arranged, key_le.
  destruct (String.eqb sort_by "voteCount");
    [|destruct (String.eqb sort_by "answerCount");
      [|destruct (String.eqb sort_by "viewCount")]];
    intros H;
    (apply sort_neighbours in H;
     [| first [exact Zleb_total | exact String.leb_total]]);
    unfold Py.before in H;
    destruct (String.eqb sort_order "desc");
    first [now apply Z.leb_le | exact H].
Qed.

(** ** Slices *)

Lemma slice_segment {A} (l : list A) start stop :
  exists pre post, l = (pre ++ Py.slice l start stop ++ post)%list.
Proof.
  unfold Py.slice. eexists. eexists.
  rewrite (firstn_skipn _ (skipn _ l)). symmetry. apply firstn_skipn.
Qed.

Lemma slice_In {A} (l : list A) start stop x :
  In x (Py.slice l start stop) -> In x l.
Proof.
  intros H. destruct (slice_segment l start stop) as (pre & post & E).
  rewrite E. apply in_or_app. right. apply in_or_app. now left.
Qed.

Lemma slice_neighbours {A} (l : list A) start stop l1 a b l2 :
  Py.slice l start stop = (l1 ++ a :: b :: l2)%list ->
  exists l1' l2', l = (l1' ++ a :: b :: l2')%list.
Proof.
  intros H. destruct (slice_segment l start stop) as (pre & post & E).
  exists (pre ++ l1)%list, (l2 ++ post)%list.
  rewrite E, H. now rewrite <- !app_assoc.
Qed.

Lemma slice_beyond {A} (l : list A) start stop :
  Z.of_nat (List.length l) <= start -> Py.slice l start stop = [].
Proof.
  intros H. unfold Py.slice, Py.clamp.
  destruct (Z.ltb_spec start 0); [lia|].
  rewrite (Z.min_r start) by lia. rewrite Nat2Z.id.
  rewrite skipn_all. apply firstn_nil.
Qed.

Lemma nth_error_neighbours {A} (l : list A) : forall i a b,
  nth_error l i = Some a -> nth_error l (S i) = Some b ->
  exists l1 l2, l = (l1 ++ a :: b :: l2)%list.
Proof.
  induction l as [|x l IH]; intros [|i] a b Ha Hb; simpl in *;
    try discriminate.
  - injection Ha as ->. destruct l as [|y l]; [discriminate|].
    injection Hb as ->. now exists [], l.
  - destruct (IH _ _ _ Ha Hb) as (l1 & l2 & ->). now exists (x :: l1), l2.
Qed.

(** ** The listing as a function of the catalog *)

Lemma get_questions_eq catalog page limit search sort_by sort_order :
  limit <> 0 ->
  Questions.get_questions catalog page limit search sort_by sort_order =
  (if Py.truthy search then catalog
   else arranged catalog sort_by sort_order,
   let l := arranged (kept catalog search) sort_by sort_order in
   let total := Z.of_nat (List.length l) in
   let total_pages := (total + limit - 1) / limit in
   Success 200
     {| Questions.questions :=
          Py.slice l ((page - 1) * limit) ((page - 1) * limit + limit);
        Questions.listing_pagination :=
          {| Questions.page := page;
             Questions.limit := limit;
             Questions.total := total;
             Questions.totalPages := total_pages;
             Questions.hasPrev := 1 <? page;
             Questions.hasNext := page <? total_pages |} |}).
Proof.
  intros Hl. apply Z.eqb_neq in Hl.
  unfold Questions.get_questions, kept, arranged, Questions.sort_in_place.
  destruct (Py.truthy search);
    destruct (String.eqb sort_by "voteCount");
    [| destruct (String.eqb sort_by "answerCount");
       [| destruct (String.eqb sort_by "viewCount")]
     | | destruct (String.eqb sort_by "answerCount");
       [| destruct (String.eqb sort_by "viewCount")]];
    cbn [Questions.assign Questions.deref Questions.at_mock_questions
         Questions.at_comprehension];
    rewrite Hl; reflexivity.
Qed.

Lemma get_questions_zero_limit catalog page search sort_by sort_order :
  Questions.get_questions catalog page 0 search sort_by sort_order =
  (if Py.truthy search then catalog
   else arranged catalog sort_by sort_order,
   Failure 500 Questions.zero_division).
Proof.
  unfold Questions.get_questions, kept, arranged, Questions.sort_in_place.
  destruct (Py.truthy search);
    destruct (String.eqb sort_by "voteCount");
    [| destruct (String.eqb sort_by "answerCount");
       [| destruct (String.eqb sort_by "viewCount")]
     | | destruct (String.eqb sort_by "answerCount");
       [| destruct (String.eqb sort_by "viewCount")]];
    reflexivity.
Qed.

Lemma kept_filter catalog search :
  kept catalog search = filter (Questions.matches search) catalog.
Proof.
  unfold kept. destruct search as [|c s]; simpl; [|reflexivity].
  induction catalog as [|q l IH]; simpl; [reflexivity|].
  rewrite matches_empty. now f_equal.
Qed.

Lemma slice_whole {A} (l : list A) stop :
  Z.of_nat (List.length l) <= stop -> Py.slice l 0 stop = l.
Proof.
  intros H. unfold Py.slice, Py.clamp. simpl (0 <? 0).
  destruct (Z.ltb_spec stop 0); [lia|].
  rewrite (Z.min_r stop) by lia. rewrite Z.min_l by lia.
  rewrite Z.sub_0_r, Nat2Z.id. simpl. apply firstn_all.
Qed.

Lemma kept_total catalog search sort_by sort_order :
  List.length (arranged (kept catalog search) sort_by sort_order) =
  List.length (filter (Questions.matches search) catalog).
Proof. now rewrite arranged_length, kept_filter. Qed.

(** ** Pagination arithmetic *)

Lemma is_ceiling_unique a b n m :
  0 < b -> is_ceiling a b n -> is_ceiling a b m -> n = m.
Proof. unfold is_ceiling. intros Hb Hn Hm. nia. Qed.

Lemma page_count_is_ceiling a b :
  0 < b -> is_ceiling a b ((a + b - 1) / b).
Proof.
  intros Hb. unfold is_ceiling.
  pose proof (Z.div_mod (a + b - 1) b ltac:(lia)) as E.
  pose proof (Z.mod_pos_bound (a + b - 1) b Hb) as B.
  nia.
Qed.

Lemma page_count_Qceiling a b :
  0 < b ->
  (a + b - 1) / b = Qround.Qceiling (QArith_base.Qdiv (QArith_base.inject_Z a)
                                       (QArith_base.inject_Z b)).
Proof.
  intros Hb. destruct b as [|p|p]; try lia.
  unfold Qround.Qceiling, Qround.Qfloor, QArith_base.Qdiv, QArith_base.Qmult,
    QArith_base.Qinv, QArith_base.Qopp, QArith_base.inject_Z.
  simpl. rewrite Z.mul_1_r.
  apply (is_ceiling_unique a (Z.pos p)); [lia | now apply page_count_is_ceiling |].
  unfold is_ceiling.
  pose proof (Z.div_mod (- a) (Z.pos p) ltac:(lia)) as E.
  pose proof (Z.mod_pos_bound (- a) (Z.pos p) ltac:(lia)) as B.
  nia.
Qed.

(** ** Listing questions *)

(** C1.  A listing (any [limit] other than [0], for which there is no
    listing but a 500) returns only catalog questions in whose title or
    description the search string occurs case-insensitively, that is, as
    a part of the lower-cased text once lower-cased itself, for whatever
    [str.lower] does; its [total] is the number of catalog questions with
    that property, whatever test decides it and whatever the page holds;
    with the empty search string every catalog question is counted, and a
    first page that is long enough holds them all. *)
Theorem get_questions_search catalog page limit search sort_by sort_order :
  limit <> 0 ->
  exists body,
    snd (Questions.get_questions catalog page limit search sort_by sort_order)
      = Success 200 body
    /\ (forall q, In q (Questions.questions body) ->
                  In q catalog /\ search_hit search q)
    /\ (forall hit : Questions.question -> bool,
          (forall q, hit q = true <-> search_hit search q) ->
          Questions.total (Questions.listing_pagination body)
            = Z.of_nat (List.length (filter hit catalog)))
    /\ (search = "" ->
          Questions.total (Questions.listing_pagination body)
            = Z.of_nat (List.length catalog)
          /\ (page = 1 -> Z.of_nat (List.length catalog) <= limit ->
              Permutation catalog (Questions.questions body))).
Proof.
  intros Hl. rewrite (get_questions_eq _ _ _ _ _ _ Hl). cbn zeta.
  eexists. split; [reflexivity|]. cbn [Questions.questions
    Questions.listing_pagination Questions.total].
  split; [|split].
  - intros q Hq. apply slice_In in Hq.
    apply (Permutation_in _ (Permutation_sym (arranged_perm _ _ _))) in Hq.
    rewrite kept_filter in Hq. apply filter_In in Hq.
    now rewrite <- matches_spec.
  - intros hit Hhit. rewrite kept_total. do 2 f_equal.
    apply filter_ext. intros q.
    destruct (hit q) eqn:E.
    + now apply matches_spec, Hhit.
    + destruct (Questions.matches search q) eqn:E'; [|reflexivity].
      apply matches_spec, Hhit in E'. congruence.
  - intros ->. unfold kept. simpl Py.truthy. cbv iota.
    rewrite arranged_length. split; [reflexivity|].
    intros -> Hlen. simpl ((1 - 1) * limit). simpl (0 + limit).
    rewrite slice_whole by (now rewrite arranged_length).
    apply arranged_perm.
Qed.

(** C3.  The page of a listing is ordered by the key that [sortBy] names:
    every two neighbours are in descending order when [sortOrder] is
    ["desc"] and in ascending order otherwise. *)
Theorem get_questions_sorted catalog page limit search sort_by sort_order :
  limit <> 0 ->
  exists body,
    snd (Questions.get_questions catalog page limit search sort_by sort_order)
      = Success 200 body
    /\ forall i a b,
         nth_error (Questions.questions body) i = Some a ->
         nth_error (Questions.questions body) (S i) = Some b ->
         if String.eqb sort_order "desc" then key_le sort_by b a
         else key_le sort_by a b.
Proof.
  intros Hl. rewrite (get_questions_eq _ _ _ _ _ _ Hl). cbn zeta.
  eexists. split; [reflexivity|]. cbn [Questions.questions].
  intros i a b Ha Hb.
  destruct (nth_error_neighbours _ _ _ _ Ha Hb) as (l1 & l2 & E).
  destruct (slice_neighbours _ _ _ _ _ _ _ E) as (l1' & l2' & E').
  exact (arranged_neighbours _ _ _ _ _ _ _ E').
Qed.

(** C4.  With [limit >= 1] the pagination of a listing has
    [totalPages = ceil (total / limit)], [hasNext] exactly when
    [page < totalPages] and [hasPrev] exactly when [page > 1], where
    [total] counts the questions left by the filter; the integer formula
    [(total + limit - 1) // limit] is that ceiling. *)
Theorem get_questions_pagination catalog page limit search sort_by sort_order :
  1 <= limit ->
  exists body,
    snd (Questions.get_questions catalog page limit search sort_by sort_order)
      = Success 200 body
    /\ let p := Questions.listing_pagination body in
       Questions.total p
         = Z.of_nat (List.length (filter (Questions.matches search) catalog))
       /\ Questions.totalPages p
            = (Questions.total p + limit - 1) / limit
       /\ is_ceiling (Questions.total p) limit (Questions.totalPages p)
       /\ Questions.totalPages p
            = Qround.Qceiling
                (QArith_base.Qdiv (QArith_base.inject_Z (Questions.total p))
                                  (QArith_base.inject_Z limit))
       /\ (Questions.hasNext p = true <-> page < Questions.totalPages p)
       /\ (Questions.hasPrev p = true <-> page > 1).
Proof.
  intros Hl. rewrite get_questions_eq by lia. cbn zeta.
  eexists. split; [reflexivity|].
  cbn [Questions.listing_pagination Questions.total Questions.totalPages
       Questions.hasNext Questions.hasPrev].
  rewrite kept_total. repeat split.
  - apply page_count_is_ceiling; lia.
  - apply page_count_is_ceiling; lia.
  - apply page_count_Qceiling; lia.
  - apply Z.ltb_lt.
  - apply Z.ltb_lt.
  - intros H. apply Z.ltb_lt in H. lia.
  - intros H. apply Z.ltb_lt. lia.
Qed.

(** C8.  With [page >= 1] and [limit >= 1], a page that starts at or after
    the end of the filtered list is an empty page of a successful listing,
    whose [total] is still the size of the filtered list. *)
Theorem get_questions_out_of_range
  catalog page limit search sort_by sort_order :
  1 <= page -> 1 <= limit ->
  (page - 1) * limit
    >= Z.of_nat (List.length (filter (Questions.matches search) catalog)) ->
  exists body,
    snd (Questions.get_questions catalog page limit search sort_by sort_order)
      = Success 200 body
    /\ Questions.questions body = []
    /\ Questions.total (Questions.listing_pagination body)
         = Z.of_nat (List.length (filter (Questions.matches search) catalog)).
Proof.
  intros _ Hl Hr. rewrite get_questions_eq by lia. cbn zeta.
  eexists. split; [reflexivity|].
  cbn [Questions.questions Questions.listing_pagination Questions.total].
  rewrite kept_total. split; [|reflexivity].
  apply slice_beyond. rewrite kept_total. lia.
Qed.

(** A listing may reorder the catalog but neither loses nor repeats a
    question of it. *)
Lemma get_questions_catalog_perm
  catalog page limit search sort_by sort_order :
  Permutation catalog
    (fst (Questions.get_questions catalog page limit search sort_by
            sort_order)).
Proof.
  destruct (Z.eq_dec limit 0) as [->|Hl].
  - rewrite get_questions_zero_limit. simpl.
    destruct (Py.truthy search); [reflexivity | apply arranged_perm].
  - rewrite get_questions_eq by assumption. simpl.
    destruct (Py.truthy search); [reflexivity | apply arranged_perm].
Qed.

(** A listing with a search string sorts the list built by the
    comprehension and leaves the catalog as it is. *)
Lemma get_questions_frame_search
  catalog page limit search sort_by sort_order :
  search <> "" ->
  fst (Questions.get_questions catalog page limit search sort_by sort_order)
    = catalog.
Proof.
  intros Hs. assert (Py.truthy search = true) as Ht
    by (destruct search; [congruence | reflexivity]).
  destruct (Z.eq_dec limit 0) as [->|Hl].
  - rewrite get_questions_zero_limit. simpl. now rewrite Ht.
  - rewrite get_questions_eq by assumption. simpl. now rewrite Ht.
Qed.

(** C2.  A listing without a search string sorts the catalog itself: after
    listing the sample catalog by descending vote count, the stored order
    is 3, 1, 2 and no longer 1, 2, 3. *)
Theorem get_questions_reorders_catalog :
  let after :=
    fst (Questions.get_questions Questions.mock_questions 1 20 ""
           "voteCount" "desc") in
  map Questions.id Questions.mock_questions = [1; 2; 3]
  /\ map Questions.id after = [3; 1; 2]
  /\ after <> Questions.mock_questions.
Proof.
  cbv zeta. split; [reflexivity|]. split; [reflexivity|].
  intros H. apply (f_equal (map Questions.id)) in H. discriminate H.
Qed.

(** ** Fetching and creating questions *)

Lemma find_first {A} (f : A -> bool) (l : list A) x :
  find f l = Some x ->
  exists pre post,
    l = (pre ++ x :: post)%list /\ f x = true
    /\ forall y, In y pre -> f y = false.
Proof.
  induction l as [|a l IH]; simpl; [discriminate|].
  destruct (f a) eqn:E.
  - intros [= ->]. exists [], l. repeat split; [exact E|]. intros y [].
  - intros H. destruct (IH H) as (pre & post & -> & Hx & Hpre).
    exists (a :: pre), post. repeat split; [exact Hx|].
    intros y [<-|Hy]; [exact E | now apply Hpre].
Qed.

(** C7.  [get_question] answers with a catalog question that has the
    requested id (the first one) when there is one, and with the 404
    response when there is none; it never answers with a 500 and leaves
    the catalog as it is. *)
Theorem get_question_found_or_404 catalog question_id :
  ((exists q, In q catalog /\ Questions.id q = question_id) ->
   exists q pre post,
     Questions.get_question catalog question_id = (catalog, Success 200 q)
     /\ Questions.id q = question_id
     /\ catalog = (pre ++ q :: post)%list
     /\ forall q', In q' pre -> Questions.id q' <> question_id)
  /\ ((forall q, In q catalog -> Questions.id q <> question_id) ->
      Questions.get_question catalog question_id
        = (catalog, Failure 404 "Question not found"))
  /\ status_of (snd (Questions.get_question catalog question_id)) <> 500.
Proof.
  unfold Questions.get_question.
  destruct (find _ catalog) as [q|] eqn:E.
  - destruct (find_first _ _ _ E) as (pre & post & Hc & Hq & Hpre).
    apply Z.eqb_eq in Hq. split; [|split].
    + intros _. exists q, pre, post. repeat split; try assumption.
      intros q' Hq'. apply Z.eqb_neq. now apply Hpre.
    + intros Hnone. exfalso. apply (Hnone q); [|exact Hq].
      rewrite Hc. apply in_elt.
    + simpl. lia.
  - split; [|split].
    + intros (q & Hin & Hq). apply (find_none _ _ E) in Hin.
      apply Z.eqb_neq in Hin. contradiction.
    + reflexivity.
    + simpl. lia.
Qed.

(** C6.  [create_question] answers 400 and leaves the catalog as it is when
    the body, the title or the description is missing; otherwise it appends
    one record, with the next id, the demo author, zero counters, not
    resolved, the fixed timestamp twice and the given tags (none when the
    body has no tags), and answers 201 with that record. *)
Theorem create_question_spec catalog data :
  ((data = None
    \/ exists d, data = Some d
         /\ (missing (Questions.data_title d)
             \/ missing (Questions.data_description d))) ->
   Questions.create_question catalog data
     = (catalog, Failure 400 "Title and description are required"))
  /\ (forall d t ds,
        data = Some d ->
        Questions.data_title d = Some t -> t <> "" ->
        Questions.data_description d = Some ds -> ds <> "" ->
        let q :=
          {| Questions.id := Z.of_nat (List.length catalog) + 1;
             Questions.title := t;
             Questions.description := ds;
             Questions.author :=
               {| Questions.author_id := 1;
                  Questions.author_name := "Current User";
                  Questions.author_reputation := 100 |};
             Questions.tags :=
               match Questions.data_tags d with
               | Some ts => ts
               | None => []
               end;
             Questions.voteCount := 0;
             Questions.answerCount := 0;
             Questions.viewCount := 0;
             Questions.isResolved := false;
             Questions.createdAt := "2024-01-16T12:00:00Z";
             Questions.updatedAt := "2024-01-16T12:00:00Z" |} in
        Questions.create_question catalog data
          = ((catalog ++ [q])%list, Success 201 q)).
Proof.
  split.
  - intros [->|(d & -> & H)]; [reflexivity|]. unfold Questions.create_question.
    destruct H as [H|H]; apply truthy_field_false in H; rewrite H;
      [reflexivity | now rewrite orb_true_r].
  - intros d t ds -> Ht Hnt Hd Hnd. unfold Questions.create_question.
    rewrite Ht, Hd. destruct t; [congruence|]. destruct ds; [congruence|].
    reflexivity.
Qed.

(** ** Accounts *)

Lemma find_by_email_some users e :
  (exists u, In u users /\ Auth.email u = e) ->
  exists u, Auth.find_by_email e users = Some u.
Proof.
  intros (u & Hin & Hu). unfold Auth.find_by_email.
  destruct (find _ users) as [u'|] eqn:E; [now exists u'|].
  apply (find_none _ _ E) in Hin. simpl in Hin.
  rewrite Hu, String.eqb_refl in Hin. discriminate.
Qed.

Lemma without_password_view u :
  public_view u (Auth.without_password (Auth.items u)).
Proof.
  split.
  - intros k v. unfold Auth.without_password. rewrite filter_In. simpl fst.
    rewrite negb_true_iff, String.eqb_neq. reflexivity.
  - reflexivity.
Qed.

(** C5, as amended.  A registration request with all three fields present
    and not empty, whose email is the one of a user of the directory, is
    answered with the 409 conflict whatever the password and the name are,
    and leaves the directory as it is. *)
Theorem register_conflict users e p n :
  e <> "" -> p <> "" -> n <> "" ->
  (exists u, In u users /\ Auth.email u = e) ->
  Auth.register users
    (Some {| Auth.data_email := Some e;
             Auth.data_password := Some p;
             Auth.data_name := Some n |})
    = (users, Failure 409 "User with this email already exists").
Proof.
  intros He Hp Hn Hex. unfold Auth.register. simpl.
  destruct e; [congruence|]. destruct p; [congruence|].
  destruct n; [congruence|]. simpl.
  destruct (find_by_email_some _ _ Hex) as (u & ->). reflexivity.
Qed.

(** C5, as stated, fails: the sample user's email with an empty password
    is answered with 400. *)
Lemma register_conflict_not_regardless :
  let d := {| Auth.data_email := Some "demo@stackit.com";
              Auth.data_password := Some "";
              Auth.data_name := Some "Demo User" |} in
  (exists u, In u Auth.mock_users /\ Some (Auth.email u) = Auth.data_email d)
  /\ status_of (snd (Auth.register Auth.mock_users (Some d))) = 400
  /\ status_of (snd (Auth.register Auth.mock_users (Some d))) <> 409.
Proof.
  cbv zeta. split; [|split].
  - eexists. split; [left; reflexivity | reflexivity].
  - reflexivity.
  - simpl. lia.
Qed.

(** C9.  The user object of every successful registration, login or
    profile fetch shows all the entries of the stored record it answers
    for but the password, which it does not hold: the record just
    appended under the email of the request, the first stored record with
    the email of the request, the first record of the directory.  Each of
    the three does succeed: a registration with non-empty fields and a new
    email, a login with the non-empty email and password of the first
    stored user with that email, a profile fetch on a directory that is
    not empty. *)
Theorem user_object_without_password users data :
  (forall st body,
     snd (Auth.register users data) = Success st body ->
     exists d e u,
       data = Some d /\ Auth.data_email d = Some e /\ Auth.email u = e
       /\ fst (Auth.register users data) = (users ++ [u])%list
       /\ public_view u (Auth.session_user body))
  /\ (forall st body,
        snd (Auth.login users data) = Success st body ->
        exists d e u pre post,
          data = Some d /\ Auth.data_email d = Some e
          /\ users = (pre ++ u :: post)%list /\ Auth.email u = e
          /\ (forall u', In u' pre -> Auth.email u' <> e)
          /\ fst (Auth.login users data) = users
          /\ public_view u (Auth.session_user body))
  /\ (forall st body,
        snd (Auth.get_profile users) = Success st body ->
        exists u,
          hd_error users = Some u /\ fst (Auth.get_profile users) = users
          /\ public_view u body)
  /\ (forall e p n,
        e <> "" -> p <> "" -> n <> "" ->
        (forall u, In u users -> Auth.email u <> e) ->
        exists body,
          snd (Auth.register users
                 (Some {| Auth.data_email := Some e;
                          Auth.data_password := Some p;
                          Auth.data_name := Some n |}))
            = Success 201 body)
  /\ (forall pre u post n,
        users = (pre ++ u :: post)%list ->
        (forall u', In u' pre -> Auth.email u' <> Auth.email u) ->
        Auth.email u <> "" -> Auth.password u <> "" ->
        exists body,
          snd (Auth.login users
                 (Some {| Auth.data_email := Some (Auth.email u);
                          Auth.data_password := Some (Auth.password u);
                          Auth.data_name := n |}))
            = Success 200 body
          /\ public_view u (Auth.session_user body))
  /\ (forall u rest,
        users = u :: rest ->
        exists body,
          snd (Auth.get_profile users) = Success 200 body
          /\ public_view u body).
Proof.
  repeat split.
  - intros st body. unfold Auth.register.
    destruct data as [d|]; [|discriminate].
    destruct (_ || _ || _)%bool; [discriminate|].
    destruct (Auth.data_email d) as [e|] eqn:Ee; [|discriminate].
    destruct (Auth.data_name d) as [n|]; [|discriminate].
    destruct (Auth.data_password d) as [p|]; [|discriminate].
    destruct (Auth.find_by_email e users); [discriminate|].
    cbv zeta. cbn [fst snd]. intros [= <- <-].
    exists d, e. eexists. split; [reflexivity|]. split; [exact Ee|].
    split; [|split; [reflexivity | apply without_password_view]].
    reflexivity.
  - intros st body. unfold Auth.login.
    destruct data as [d|]; [|discriminate].
    destruct (_ || _)%bool; [discriminate|].
    destruct (Auth.data_email d) as [e|] eqn:Ee; [|discriminate].
    destruct (Auth.data_password d) as [p|]; [|discriminate].
    destruct (Auth.find_by_email e users) as [u|] eqn:E; [|discriminate].
    destruct (negb _); [discriminate|].
    cbv zeta. cbn [fst snd]. intros [= <- <-].
    unfold Auth.find_by_email in E.
    destruct (find_first _ _ _ E) as (pre & post & Hu & He & Hpre).
    apply String.eqb_eq in He.
    exists d, e, u, pre, post. split; [reflexivity|]. split; [exact Ee|].
    split; [exact Hu|]. split; [exact He|]. split.
    + intros u' Hu'. apply String.eqb_neq. now apply Hpre.
    + split; [reflexivity | apply without_password_view].
  - intros st body. unfold Auth.get_profile.
    destruct users as [|u users]; [discriminate|].
    cbn [fst snd]. intros [= <- <-].
    exists u. split; [reflexivity|].
    split; [reflexivity | apply without_password_view].
  - intros e p n He Hp Hn Hnew. unfold Auth.register.
    cbn [Auth.data_email Auth.data_password Auth.data_name].
    destruct e; [congruence|]. destruct p; [congruence|].
    destruct n; [congruence|].
    cbn -[Auth.find_by_email Auth.without_password List.length].
    destruct (Auth.find_by_email _ users) as [u|] eqn:E.
    + exfalso. unfold Auth.find_by_email in E. apply find_some in E.
      destruct E as (Hin & Hu). apply String.eqb_eq in Hu.
      now apply (Hnew u).
    + cbn [snd]. now eexists.
  - intros pre u post n -> Hpre He Hp. unfold Auth.login.
    cbn [Auth.data_email Auth.data_password Auth.data_name].
    destruct (Auth.email u) as [|c e] eqn:Ee; [congruence|].
    destruct (Auth.password u) as [|c' p] eqn:Ep; [congruence|].
    cbn -[Auth.find_by_email Auth.without_password String.eqb].
    assert (Auth.find_by_email (String c e) (pre ++ u :: post)%list = Some u)
      as ->.
    { unfold Auth.find_by_email. clear He Hp.
      induction pre as [|v pre IH]; simpl.
      - now rewrite Ee, String.eqb_refl.
      - destruct (String.eqb (Auth.email v) (String c e)) eqn:Ev.
        + apply String.eqb_eq in Ev. exfalso.
          apply (Hpre v); [now left | exact Ev].
        + apply IH. intros u' Hu'. apply Hpre. now right. }
    rewrite Ep, String.eqb_refl. cbn [negb snd].
    eexists. split; [reflexivity|]. apply without_password_view.
  - intros u rest ->. cbn [Auth.get_profile snd].
    eexists. split; [reflexivity|]. apply without_password_view.
Qed.

Lemma absent_if_empty_truthy f :
  Py.truthy_field (absent_if_empty f) = Py.truthy_field f.
Proof. destruct f as [[|c s]|]; reflexivity. Qed.

(** C10.  A register, login or create request in which a required field is
    the empty string is answered with the 400 of the handler and changes
    nothing, which is also the answer to the same request without its
    empty fields; so registering the email of a stored user with an empty
    password gives 400 and not 409. *)
Theorem empty_field_is_missing users catalog :
  (forall d,
     Auth.data_email d = Some ""
     \/ Auth.data_password d = Some "" \/ Auth.data_name d = Some "" ->
     Auth.register users (Some d)
       = (users, Failure 400 "Email, password, and name are required")
     /\ Auth.register users (Some (credentials_without_empty d))
          = Auth.register users (Some d))
  /\ (forall d,
        Auth.data_email d = Some "" \/ Auth.data_password d = Some "" ->
        Auth.login users (Some d)
          = (users, Failure 400 "Email and password are required")
        /\ Auth.login users (Some (credentials_without_empty d))
             = Auth.login users (Some d))
  /\ (forall d,
        Questions.data_title d = Some ""
        \/ Questions.data_description d = Some "" ->
        Questions.create_question catalog (Some d)
          = (catalog, Failure 400 "Title and description are required")
        /\ Questions.create_question catalog
             (Some (submission_without_empty d))
             = Questions.create_question catalog (Some d))
  /\ (forall u n,
        In u users ->
        status_of
          (snd (Auth.register users
                  (Some {| Auth.data_email := Some (Auth.email u);
                           Auth.data_password := Some "";
                           Auth.data_name := n |}))) = 400).
Proof.
  split; [|split; [|split]].
  - intros d H. unfold Auth.register, credentials_without_empty.
    cbn [Auth.data_email Auth.data_password Auth.data_name].
    rewrite !absent_if_empty_truthy.
    assert ((negb (Py.truthy_field (Auth.data_email d))
             || negb (Py.truthy_field (Auth.data_password d))
             || negb (Py.truthy_field (Auth.data_name d)))%bool = true)
      as ->; [|split; reflexivity].
    destruct H as [H|[H|H]]; rewrite H; simpl;
      rewrite ?orb_true_r; reflexivity.
  - intros d H. unfold Auth.login, credentials_without_empty.
    cbn [Auth.data_email Auth.data_password Auth.data_name].
    rewrite !absent_if_empty_truthy.
    assert ((negb (Py.truthy_field (Auth.data_email d))
             || negb (Py.truthy_field (Auth.data_password d)))%bool = true)
      as ->; [|split; reflexivity].
    destruct H as [H|H]; rewrite H; simpl; rewrite ?orb_true_r; reflexivity.
  - intros d H. unfold Questions.create_question, submission_without_empty.
    cbn [Questions.data_title Questions.data_description Questions.data_tags].
    rewrite !absent_if_empty_truthy.
    assert ((negb (Py.truthy_field (Questions.data_title d))
             || negb (Py.truthy_field (Questions.data_description d)))%bool
            = true) as ->; [|split; reflexivity].
    destruct H as [H|H]; rewrite H; simpl; rewrite ?orb_true_r; reflexivity.
  - intros u n _. unfold Auth.register.
    cbn [Auth.data_email Auth.data_password Auth.data_name].
    simpl (Py.truthy_field (Some "")). simpl (negb false).
    rewrite orb_true_r. reflexivity.
Qed.

End Properties.

(** ** The theorems at the sample data *)

Section SampleData.
#[local] Existing Instance Py.ascii_lower.

Lemma get_questions_search_witness :
  1 <> 0
  /\ exists body,
       snd (Questions.get_questions Questions.mock_questions 1 1 "A"
              "voteCount" "desc") = Success 200 body
       /\ (forall q, In q (Questions.questions body) ->
                     In q Questions.mock_questions /\ search_hit "A" q)
       /\ Questions.total (Questions.listing_pagination body) = 3.
Proof.
  split; [lia|].
  destruct (get_questions_search Questions.mock_questions 1 1 "A"
              "voteCount" "desc") as (body & Hb & Hin & Htot & _); [lia|].
  exists body. split; [exact Hb|]. split; [exact Hin|].
  rewrite (Htot (Questions.matches "A")); [reflexivity|].
  intros q. apply matches_spec.
Defined.

Lemma get_questions_sorted_witness :
  20 <> 0
  /\ exists body,
       snd (Questions.get_questions Questions.mock_questions 1 20 ""
              "voteCount" "desc") = Success 200 body
       /\ forall i a b,
            nth_error (Questions.questions body) i = Some a ->
            nth_error (Questions.questions body) (S i) = Some b ->
            Questions.voteCount b <= Questions.voteCount a.
Proof.
  split; [lia|].
  destruct (get_questions_sorted Questions.mock_questions 1 20 ""
              "voteCount" "desc") as (body & Hb & Hs); [lia|].
  exists body. split; [exact Hb|]. intros i a b Ha Hb'.
  exact (Hs i a b Ha Hb').
Defined.

Lemma get_questions_pagination_witness :
  1 <= 2
  /\ exists body,
       snd (Questions.get_questions Questions.mock_questions 1 2 ""
              "createdAt" "desc") = Success 200 body
       /\ Questions.total (Questions.listing_pagination body) = 3
       /\ is_ceiling 3 2 (Questions.totalPages (Questions.listing_pagination body))
       /\ (Questions.hasNext (Questions.listing_pagination body) = true <->
           1 < Questions.totalPages (Questions.listing_pagination body)).
Proof.
  split; [lia|].
  destruct (get_questions_pagination Questions.mock_questions 1 2 ""
              "createdAt" "desc")
    as (body & Hb & Ht & _ & Hc & _ & Hn & _); [lia|].
  exists body. split; [exact Hb|].
  assert (Questions.total (Questions.listing_pagination body) = 3) as E
    by (rewrite Ht; reflexivity).
  split; [exact E|]. rewrite E in Hc. split; [exact Hc | exact Hn].
Defined.

Lemma get_questions_out_of_range_witness :
  1 <= 3 /\ 1 <= 2
  /\ (3 - 1) * 2
       >= Z.of_nat (List.length (filter (Questions.matches "")
                                   Questions.mock_questions))
  /\ exists body,
       snd (Questions.get_questions Questions.mock_questions 3 2 ""
              "createdAt" "desc") = Success 200 body
       /\ Questions.questions body = []
       /\ Questions.total (Questions.listing_pagination body)
            = Z.of_nat (List.length (filter (Questions.matches "")
                                       Questions.mock_questions)).
Proof.
  assert ((3 - 1) * 2
          >= Z.of_nat (List.length (filter (Questions.matches "")
                                      Questions.mock_questions))) as H
    by (vm_compute; discriminate).
  split; [lia|]. split; [lia|]. split; [exact H|].
  apply get_questions_out_of_range; [lia | lia | exact H].
Defined.

Lemma get_question_found_or_404_witness :
  (exists q pre post,
     Questions.get_question Questions.mock_questions 2
       = (Questions.mock_questions, Success 200 q)
     /\ Questions.id q = 2
     /\ Questions.mock_questions = (pre ++ q :: post)%list
     /\ forall q', In q' pre -> Questions.id q' <> 2)
  /\ Questions.get_question Questions.mock_questions 7
       = (Questions.mock_questions, Failure 404 "Question not found").
Proof.
  split.
  - apply (proj1 (get_question_found_or_404 Questions.mock_questions 2)).
    eexists. split; [right; left; reflexivity | reflexivity].
  - apply (proj1 (proj2 (get_question_found_or_404
                           Questions.mock_questions 7))).
    intros q [<-|[<-|[<-|[]]]]; simpl; lia.
Defined.

Lemma create_question_spec_witness :
  Questions.create_question Questions.mock_questions
    (Some {| Questions.data_title := None;
             Questions.data_description := Some "text";
             Questions.data_tags := None |})
    = (Questions.mock_questions,
       Failure 400 "Title and description are required")
  /\ exists q,
       Questions.create_question Questions.mock_questions
         (Some {| Questions.data_title := Some "Title";
                  Questions.data_description := Some "text";
                  Questions.data_tags := None |})
         = ((Questions.mock_questions ++ [q])%list, Success 201 q)
       /\ Questions.id q = 4 /\ Questions.tags q = [].
Proof.
  split.
  - apply (proj1 (create_question_spec Questions.mock_questions _)).
    right. eexists. split; [reflexivity|]. left. left. reflexivity.
  - eexists. split.
    + apply (proj2 (create_question_spec Questions.mock_questions _)
               {| Questions.data_title := Some "Title";
                  Questions.data_description := Some "text";
                  Questions.data_tags := None |} "Title" "text");
        try reflexivity; discriminate.
    + split; reflexivity.
Defined.

Lemma register_conflict_witness :
  "demo@stackit.com" <> "" /\ "secret" <> "" /\ "Someone" <> ""
  /\ (exists u, In u Auth.mock_users /\ Auth.email u = "demo@stackit.com")
  /\ Auth.register Auth.mock_users
       (Some {| Auth.data_email := Some "demo@stackit.com";
                Auth.data_password := Some "secret";
                Auth.data_name := Some "Someone" |})
       = (Auth.mock_users,
          Failure 409 "User with this email already exists").
Proof.
  assert (exists u, In u Auth.mock_users
                    /\ Auth.email u = "demo@stackit.com") as H
    by (eexists; split; [left; reflexivity | reflexivity]).
  repeat (split; [discriminate|]). split; [exact H|].
  apply register_conflict; [discriminate | discriminate | discriminate|].
  exact H.
Defined.

Lemma user_object_without_password_witness :
  let d := {| Auth.data_email := Some "new@stackit.com";
              Auth.data_password := Some "secret";
              Auth.data_name := Some "Newcomer" |} in
  let reg :=
    {| Auth.session_user :=
         [ ("id", Auth.VInt 2); ("email", Auth.VStr "new@stackit.com");
           ("name", Auth.VStr "Newcomer"); ("reputation", Auth.VInt 0);
           ("avatar", Auth.VNone) ];
       Auth.session_tokens := Auth.mock_tokens |} in
  let demo :=
    [ ("id", Auth.VInt 1); ("email", Auth.VStr "demo@stackit.com");
      ("name", Auth.VStr "Demo User"); ("reputation", Auth.VInt 1250);
      ("avatar", Auth.VNone) ] in
  (snd (Auth.register Auth.mock_users (Some d)) = Success 201 reg
   /\ exists d' e u,
        Some d = Some d' /\ Auth.data_email d' = Some e /\ Auth.email u = e
        /\ fst (Auth.register Auth.mock_users (Some d))
            = (Auth.mock_users ++ [u])%list
        /\ public_view u (Auth.session_user reg))
  /\ (exists u body,
        hd_error Auth.mock_users = Some u
        /\ snd (Auth.login Auth.mock_users
                  (Some {| Auth.data_email := Some "demo@stackit.com";
                           Auth.data_password := Some "demo123";
                           Auth.data_name := None |}))
           = Success 200 body
        /\ Auth.session_user body = demo
        /\ public_view u (Auth.session_user body))
  /\ (exists u body,
        hd_error Auth.mock_users = Some u
        /\ snd (Auth.get_profile Auth.mock_users) = Success 200 body
        /\ body = demo
        /\ public_view u body).
Proof.
  cbv zeta. split; [|split].
  - split; [reflexivity|].
    apply (proj1 (user_object_without_password Auth.mock_users _) 201).
    reflexivity.
  - pose (u := {| Auth.id := 1; Auth.email := "demo@stackit.com";
                  Auth.name := "Demo User"; Auth.password := "demo123";
                  Auth.reputation := 1250; Auth.avatar := None |}).
    destruct (proj1 (proj2 (proj2 (proj2 (proj2
                (user_object_without_password Auth.mock_users None)))))
                [] u [] None eq_refl) as (body & Hb & Hv);
      [intros u' [] | discriminate | discriminate |].
    exists u, body. split; [reflexivity|]. split; [exact Hb|].
    split; [|exact Hv]. cbn in Hb. now injection Hb as <-.
  - pose (u := {| Auth.id := 1; Auth.email := "demo@stackit.com";
                  Auth.name := "Demo User"; Auth.password := "demo123";
                  Auth.reputation := 1250; Auth.avatar := None |}).
    destruct (proj2 (proj2 (proj2 (proj2 (proj2
                (user_object_without_password Auth.mock_users None)))))
                u [] eq_refl) as (body & Hb & Hv).
    exists u, body. split; [reflexivity|]. split; [exact Hb|].
    split; [|exact Hv]. cbn in Hb. now injection Hb as <-.
Defined.

Lemma empty_field_is_missing_witness :
  let d := {| Auth.data_email := Some "demo@stackit.com";
              Auth.data_password := Some "";
              Auth.data_name := Some "Demo User" |} in
  Auth.register Auth.mock_users (Some d)
    = (Auth.mock_users, Failure 400 "Email, password, and name are required")
  /\ Auth.register Auth.mock_users (Some (credentials_without_empty d))
       = Auth.register Auth.mock_users (Some d).
Proof.
  cbv zeta.
  apply (proj1 (empty_field_is_missing Auth.mock_users
                  Questions.mock_questions)).
  right. left. reflexivity.
Defined.

End SampleData.

(** ** Registration, login and profile together *)

Section MoreProperties.
Context {str_lower : Py.StrLower}.

Lemma find_snoc {A} (f : A -> bool) (l : list A) x :
  find f (l ++ [x])%list =
  match find f l with
  | Some y => Some y
  | None => if f x then Some x else None
  end.
Proof.
  induction l as [|a l IH]; simpl; [reflexivity|].
  destruct (f a); [reflexivity | exact IH].
Qed.

Lemma find_by_email_none users e :
  (forall u, In u users -> Auth.email u <> e) ->
  Auth.find_by_email e users = None.
Proof.
  intros H. unfold Auth.find_by_email.
  destruct (find _ users) as [u|] eqn:E; [|reflexivity].
  apply find_some in E. destruct E as (Hin & He).
  apply String.eqb_eq in He. now apply H in Hin.
Qed.

Lemma find_by_email_sound users e u :
  Auth.find_by_email e users = Some u -> In u users /\ Auth.email u = e.
Proof.
  unfold Auth.find_by_email. intros H. apply find_some in H.
  destruct H as (Hin & He). now apply String.eqb_eq in He.
Qed.

Lemma find_by_email_absent users e :
  Auth.find_by_email e users = None -> ~ In e (map Auth.email users).
Proof.
  unfold Auth.find_by_email. intros H Hin. apply in_map_iff in Hin.
  destruct Hin as (u & Hu & Hin). apply (find_none _ _ H) in Hin.
  simpl in Hin. rewrite Hu, String.eqb_refl in Hin. discriminate.
Qed.

(** What [register] does, case by case. *)
Lemma register_cases users data :
  (Auth.register users data
     = (users, Failure 400 "Email, password, and name are required")
   /\ (data = None
       \/ exists d, data = Some d
            /\ (missing (Auth.data_email d) \/ missing (Auth.data_password d)
                \/ missing (Auth.data_name d))))
  \/ (exists e p n,
        data = Some {| Auth.data_email := Some e;
                       Auth.data_password := Some p;
                       Auth.data_name := Some n |}
        /\ e <> "" /\ p <> "" /\ n <> ""
        /\ ((exists u, Auth.find_by_email e users = Some u
               /\ Auth.register users data
                    = (users,
                       Failure 409 "User with this email already exists"))
            \/ (Auth.find_by_email e users = None
                /\ let u := {| Auth.id := Z.of_nat (List.length users) + 1;
                               Auth.email := e;
                               Auth.name := n;
                               Auth.password := p;
                               Auth.reputation := 0;
                               Auth.avatar := None |} in
                   Auth.register users data
                     = ((users ++ [u])%list,
                        Success 201
                          {| Auth.session_user :=
                               Auth.without_password (Auth.items u);
                             Auth.session_tokens := Auth.mock_tokens |})))).
Proof.
  destruct data as [[e p n]|]; [|left; split; [reflexivity | now left]].
  destruct e as [[|c e]|]; try (left; split; [reflexivity|]; right;
    eexists; split; [reflexivity|]; left; unfold missing; simpl; auto; fail).
  destruct p as [[|c' p]|]; try (left; split; [reflexivity|]; right;
    eexists; split; [reflexivity|]; right; left; unfold missing; simpl;
    auto; fail).
  destruct n as [[|c'' n]|]; try (left; split; [reflexivity|]; right;
    eexists; split; [reflexivity|]; right; right; unfold missing; simpl;
    auto; fail).
  right. exists (String c e), (String c' p), (String c'' n).
  split; [reflexivity|]. repeat (split; [discriminate|]).
  unfold Auth.register. cbn -[Auth.find_by_email Auth.without_password].
  destruct (Auth.find_by_email (String c e) users) as [u|] eqn:E.
  - left. exists u. split; reflexivity.
  - right. split; reflexivity.
Qed.

(** What [login] does, case by case. *)
Lemma login_cases users data :
  (Auth.login users data
     = (users, Failure 400 "Email and password are required")
   /\ (data = None
       \/ exists d, data = Some d
            /\ (missing (Auth.data_email d)
                \/ missing (Auth.data_password d))))
  \/ (exists e p n,
        data = Some {| Auth.data_email := Some e;
                       Auth.data_password := Some p;
                       Auth.data_name := n |}
        /\ e <> "" /\ p <> ""
        /\ ((Auth.login users data
               = (users, Failure 401 "Invalid email or password")
             /\ (Auth.find_by_email e users = None
                 \/ exists u, Auth.find_by_email e users = Some u
                      /\ Auth.password u <> p))
            \/ (exists u,
                  Auth.find_by_email e users = Some u
                  /\ Auth.password u = p
                  /\ Auth.login users data
                       = (users,
                          Success 200
                            {| Auth.session_user :=
                                 Auth.without_password (Auth.items u);
                               Auth.session_tokens := Auth.mock_tokens |})))).
Proof.
  destruct data as [[e p n]|]; [|left; split; [reflexivity | now left]].
  destruct e as [[|c e]|]; try (left; split; [reflexivity|]; right;
    eexists; split; [reflexivity|]; left; unfold missing; simpl; auto; fail).
  destruct p as [[|c' p]|]; try (left; split; [reflexivity|]; right;
    eexists; split; [reflexivity|]; right; unfold missing; simpl;
    auto; fail).
  right. exists (String c e), (String c' p), n.
  split; [reflexivity|]. repeat (split; [discriminate|]).
  unfold Auth.login. cbn -[Auth.find_by_email Auth.without_password String.eqb].
  destruct (Auth.find_by_email (String c e) users) as [u|] eqn:E.
  - destruct (String.eqb (Auth.password u) (String c' p)) eqn:Ep.
    + right. exists u. apply String.eqb_eq in Ep. repeat split; assumption.
    + left. split; [reflexivity|]. right. exists u.
      apply String.eqb_neq in Ep. now split.
  - left. split; [reflexivity|]. now left.
Qed.

(** A registration with three non-empty fields and an email that no stored
    user has appends the record with the next id, no reputation and no
    avatar, and answers 201 with that record less its password and the two
    fixed tokens. *)
Theorem register_created users e p n :
  e <> "" -> p <> "" -> n <> "" ->
  (forall u, In u users -> Auth.email u <> e) ->
  Auth.register users
    (Some {| Auth.data_email := Some e;
             Auth.data_password := Some p;
             Auth.data_name := Some n |})
  = ((users ++ [ {| Auth.id := Z.of_nat (List.length users) + 1;
                    Auth.email := e;
                    Auth.name := n;
                    Auth.password := p;
                    Auth.reputation := 0;
                    Auth.avatar := None |} ])%list,
     Success 201
       {| Auth.session_user :=
            [ ("id", Auth.VInt (Z.of_nat (List.length users) + 1));
              ("email", Auth.VStr e);
              ("name", Auth.VStr n);
              ("reputation", Auth.VInt 0);
              ("avatar", Auth.VNone) ];
          Auth.session_tokens :=
            {| Auth.accessToken := "mock_access_token";
               Auth.refreshToken := "mock_refresh_token" |} |}).
Proof.
  intros He Hp Hn Hnew. apply find_by_email_none in Hnew.
  destruct (register_cases users
              (Some {| Auth.data_email := Some e;
                       Auth.data_password := Some p;
                       Auth.data_name := Some n |}))
    as [(_ & [H|(d & [= <-] & H)])
       |(e' & p' & n' & [= <- <- <-] & _ & _ & _ & H)].
  - discriminate.
  - unfold missing in H. simpl in H.
    destruct H as [[H|H]|[[H|H]|[H|H]]]; congruence.
  - destruct H as [(u & Hu & _)|(_ & H)]; [congruence | exact H].
Qed.

(** [register] answers 201, 400, 409 or 500: 500 exactly when
    [request.get_json()] raised or returned a truthy value that is no
    object; it appends one user exactly when it answers 201 and otherwise
    leaves the directory as it is. *)
Theorem register_outcomes users b :
  let r := Auth.register_request users b in
  ((status_of (snd r) = 201
    /\ exists u, fst r = (users ++ [u])%list)
   \/ ((status_of (snd r) = 400 \/ status_of (snd r) = 409
        \/ status_of (snd r) = 500)
       /\ fst r = users))
  /\ (status_of (snd r) = 500 <->
      (exists message, b = Raised message)
      \/ (exists type_name, b = NotObject type_name)).
Proof.
  cbv zeta. destruct b as [m|t|data]; cbn [Auth.register_request].
  - split.
    + right. split; [now right; right | reflexivity].
    + split; [intros _; left; now exists m | reflexivity].
  - split.
    + right. split; [now right; right | reflexivity].
    + split; [intros _; right; now exists t | reflexivity].
  - destruct (register_cases users data)
      as [(-> & _)|(e & p & n & _ & _ & _ & _ & [(u & _ & ->)|(_ & H)])].
    + split.
      * right. split; [now left | reflexivity].
      * split; [discriminate | intros [(m & E)|(t & E)]; discriminate].
    + split.
      * right. split; [now right; left | reflexivity].
      * split; [discriminate | intros [(m & E)|(t & E)]; discriminate].
    + cbv zeta in H. rewrite H. split.
      * left. split; [reflexivity|]. now eexists.
      * split; [discriminate | intros [(m & E)|(t & E)]; discriminate].
Qed.

(** [register] keeps the emails of the directory pairwise distinct. *)
Theorem register_keeps_emails_distinct users data :
  NoDup (map Auth.email users) ->
  NoDup (map Auth.email (fst (Auth.register users data))).
Proof.
  intros Hnd.
  destruct (register_cases users data)
    as [(-> & _)|(e & p & n & _ & _ & _ & _ & [(u & _ & ->)|(Hf & H)])];
    try exact Hnd.
  cbv zeta in H. rewrite H. cbn [fst]. rewrite map_app. simpl.
  apply find_by_email_absent in Hf.
  apply (Permutation_NoDup (l := e :: map Auth.email users)).
  - apply Permutation_cons_append.
  - now constructor.
Qed.

(** [register] keeps the ids of the directory equal to 1, 2, ... in
    order. *)
Theorem register_keeps_ids users data :
  map Auth.id users = first_ids (List.length users) ->
  map Auth.id (fst (Auth.register users data))
    = first_ids (List.length (fst (Auth.register users data))).
Proof.
  intros Hids.
  destruct (register_cases users data)
    as [(-> & _)|(e & p & n & _ & _ & _ & _ & [(u & _ & ->)|(Hf & H)])];
    try exact Hids.
  cbv zeta in H. rewrite H. cbn [fst].
  rewrite map_app, length_app, Hids. simpl. unfold first_ids.
  rewrite Nat.add_1_r, seq_S, map_app. simpl. do 2 f_equal. lia.
Qed.

Lemma register_extends users data :
  fst (Auth.register users data) = users
  \/ exists u, fst (Auth.register users data) = (users ++ [u])%list.
Proof.
  destruct (register_cases users data)
    as [(-> & _)|(e & p & n & _ & _ & _ & _ & [(u & _ & ->)|(_ & H)])].
  - now left.
  - now left.
  - right. cbv zeta in H. rewrite H. now eexists.
Qed.

Lemma find_by_email_snoc users u e v :
  Auth.find_by_email e users = Some v ->
  Auth.find_by_email e (users ++ [u])%list = Some v.
Proof.
  unfold Auth.find_by_email. intros H. now rewrite find_snoc, H.
Qed.

Lemma emails_distinct_inj users u v :
  NoDup (map Auth.email users) ->
  In u users -> In v users -> Auth.email u = Auth.email v -> u = v.
Proof.
  induction users as [|w users IH]; simpl; [contradiction|].
  intros Hnd [<-|Hu] [<-|Hv] E; inversion Hnd as [|? ? Hnot Hnd']; subst.
  - reflexivity.
  - exfalso. apply Hnot. rewrite E. now apply in_map.
  - exfalso. apply Hnot. rewrite <- E. now apply in_map.
  - now apply IH.
Qed.

(** Right after a successful registration, logging in with the same body
    succeeds and returns the user object and the tokens the registration
    returned. *)
Theorem register_then_login users d st body :
  snd (Auth.register users (Some d)) = Success st body ->
  Auth.login (fst (Auth.register users (Some d))) (Some d)
    = (fst (Auth.register users (Some d)), Success 200 body).
Proof.
  destruct (register_cases users (Some d))
    as [(-> & _)
       |(e & p & n & [= ->] & He & Hp & _ & [(u & _ & ->)|(Hf & H)])];
    try discriminate.
  cbv zeta in H. rewrite H. cbn [fst snd]. intros [= <- <-].
  unfold Auth.login. cbn [Auth.data_email Auth.data_password].
  destruct e; [congruence|]. destruct p; [congruence|].
  cbn -[Auth.find_by_email Auth.without_password String.eqb List.length].
  unfold Auth.find_by_email at 1. rewrite find_snoc.
  fold (Auth.find_by_email (String a e) users). rewrite Hf.
  cbn [Auth.email Auth.password]. rewrite !String.eqb_refl. reflexivity.
Qed.

(** After a successful registration, registering once more with the same
    email, whatever the new password and name, is answered with the 409
    conflict and adds nothing. *)
Theorem register_twice_conflict users e p n p' n' st body :
  snd (Auth.register users
         (Some {| Auth.data_email := Some e;
                  Auth.data_password := Some p;
                  Auth.data_name := Some n |})) = Success st body ->
  p' <> "" -> n' <> "" ->
  let users' :=
    fst (Auth.register users
           (Some {| Auth.data_email := Some e;
                    Auth.data_password := Some p;
                    Auth.data_name := Some n |})) in
  Auth.register users'
    (Some {| Auth.data_email := Some e;
             Auth.data_password := Some p';
             Auth.data_name := Some n' |})
  = (users', Failure 409 "User with this email already exists").
Proof.
  intros Hreg Hp' Hn'. cbv zeta.
  destruct (register_cases users
              (Some {| Auth.data_email := Some e;
                       Auth.data_password := Some p;
                       Auth.data_name := Some n |}))
    as [(E & _)
       |(e0 & p0 & n0 & [= <- <- <-] & He & _ & _
         & [(u & _ & E)|(Hf & H)])];
    try (rewrite E in Hreg; discriminate).
  cbv zeta in H. rewrite H. cbn [fst].
  unfold Auth.register. cbn [Auth.data_email Auth.data_password Auth.data_name].
  destruct e; [congruence|]. destruct p'; [congruence|].
  destruct n'; [congruence|].
  cbn -[Auth.find_by_email Auth.without_password List.length].
  unfold Auth.find_by_email at 1. rewrite find_snoc.
  fold (Auth.find_by_email (String a e) users). rewrite Hf.
  cbn [Auth.email]. rewrite String.eqb_refl. reflexivity.
Qed.

(** In a directory with pairwise distinct emails, a login with non-empty
    email and password is answered 200 exactly when some stored user has
    that email and that password, character for character, and 401
    otherwise; the directory stays as it is. *)
Theorem login_iff_credentials users e p n :
  NoDup (map Auth.email users) -> e <> "" -> p <> "" ->
  let r := Auth.login users
             (Some {| Auth.data_email := Some e;
                      Auth.data_password := Some p;
                      Auth.data_name := n |}) in
  fst r = users
  /\ (status_of (snd r) = 200 \/ status_of (snd r) = 401)
  /\ (status_of (snd r) = 200 <->
      exists u, In u users /\ Auth.email u = e /\ Auth.password u = p).
Proof.
  intros Hnd He Hp. cbv zeta.
  destruct (login_cases users
              (Some {| Auth.data_email := Some e;
                       Auth.data_password := Some p;
                       Auth.data_name := n |}))
    as [(_ & [H|(d & [= <-] & H)])
       |(e0 & p0 & n0 & [= <- <- <-] & _ & _
         & [(-> & H)|(u & Hf & Hpw & ->)])].
  - discriminate.
  - exfalso. unfold missing in H. simpl in H.
    destruct H as [[H|H]|[H|H]]; congruence.
  - split; [reflexivity|]. split; [now right|]. split; [discriminate|].
    intros (v & Hin & Hev & Hpv). exfalso.
    destruct H as [H|(u & Hf & Hpw)].
    + apply find_by_email_absent in H. apply H. rewrite <- Hev.
      now apply in_map.
    + apply find_by_email_sound in Hf. destruct Hf as (Hu & Heu).
      apply Hpw. rewrite (emails_distinct_inj users u v Hnd Hu Hin);
        [exact Hpv | congruence].
  - split; [reflexivity|]. split; [now left|]. split; [|reflexivity].
    intros _. apply find_by_email_sound in Hf. destruct Hf as (Hu & Heu).
    now exists u.
Qed.

(** A login that succeeds keeps succeeding, with the same answer, after any
    registration request. *)
Theorem login_survives_register users data_login data_register st body :
  snd (Auth.login users data_login) = Success st body ->
  snd (Auth.login (fst (Auth.register users data_register)) data_login)
    = Success st body.
Proof.
  intros Hl.
  destruct (register_extends users data_register) as [->|(u & ->)];
    [exact Hl|].
  destruct (login_cases users data_login)
    as [(E & _)
       |(e & p & n & -> & He & Hp & [(E & _)|(v & Hf & Hpw & E)])];
    try (rewrite E in Hl; discriminate).
  rewrite E in Hl. cbn [snd] in Hl. rewrite <- Hl.
  unfold Auth.login. cbn [Auth.data_email Auth.data_password].
  destruct e; [congruence|]. destruct p; [congruence|].
  cbn -[Auth.find_by_email Auth.without_password String.eqb].
  rewrite (find_by_email_snoc _ u _ _ Hf), Hpw, String.eqb_refl.
  reflexivity.
Qed.

(** [get_profile] answers 404 exactly for the empty directory; for any
    other directory it shows the first user, and no registration changes
    its answer. *)
Theorem get_profile_first_user users data :
  (status_of (snd (Auth.get_profile users)) = 404 <-> users = [])
  /\ fst (Auth.get_profile users) = users
  /\ (users <> [] ->
      snd (Auth.get_profile (fst (Auth.register users data)))
        = snd (Auth.get_profile users))
  /\ (forall u rest,
        users = u :: rest ->
        snd (Auth.get_profile users)
          = Success 200 (Auth.without_password (Auth.items u))).
Proof.
  split; [|split; [|split]].
  - destruct users; simpl; split; congruence.
  - destruct users; reflexivity.
  - intros Hne. destruct (register_extends users data) as [->|(u & ->)];
      [reflexivity|].
    destruct users; [congruence | reflexivity].
  - intros u rest ->. reflexivity.
Qed.

(** ** More on sorting and slicing *)

Lemma chain_of_neighbours {A} (R : A -> A -> Prop) (l : list A) :
  (forall l1 a b l2, l = (l1 ++ a :: b :: l2)%list -> R a b) -> chain R l.
Proof.
  induction l as [|x l IH]; intros H; [constructor|].
  destruct l as [|y l]; [constructor|].
  constructor.
  - now apply (H [] x y l).
  - apply IH. intros l1 a b l2 E. apply (H (x :: l1) a b l2).
    simpl. now rewrite E.
Qed.

Section SortMore.
Context {A K : Type}.
Variable kleb : K -> K -> bool.
Variable key : A -> K.
Variable reverse : bool.

Lemma sort_of_chain l :
  chain (fun x y => Py.before kleb key reverse x y = true) l ->
  Py.sort kleb key reverse l = l.
Proof.
  induction 1 as [|x|x y l Hxy Hl IH]; [reflexivity | reflexivity|].
  change (Py.sort kleb key reverse (x :: y :: l))
    with (Py.insert kleb key reverse x (Py.sort kleb key reverse (y :: l))).
  rewrite IH. simpl. now rewrite Hxy.
Qed.

Variable same : K -> K -> bool.
Hypothesis same_spec : forall x y, same x y = true <-> x = y.
Hypothesis kleb_refl : forall x, kleb x x = true.

Lemma insert_same_key k x l :
  filter (fun y => same k (key y)) (Py.insert kleb key reverse x l)
  = filter (fun y => same k (key y)) (x :: l).
Proof.
  induction l as [|y l IH]; [reflexivity|].
  cbn [Py.insert]. destruct (Py.before kleb key reverse x y) eqn:E;
    [reflexivity|].
  cbn [filter] in *. rewrite IH.
  destruct (same k (key x)) eqn:Ex; [|reflexivity].
  destruct (same k (key y)) eqn:Ey; [|reflexivity].
  apply same_spec in Ex, Ey. exfalso.
  unfold Py.before in E. rewrite <- Ex, <- Ey in E.
  rewrite kleb_refl in E. destruct reverse; discriminate.
Qed.

Lemma sort_same_key k l :
  filter (fun y => same k (key y)) (Py.sort kleb key reverse l)
  = filter (fun y => same k (key y)) l.
Proof.
  induction l as [|x l IH]; [reflexivity|].
  cbn [Py.sort]. rewrite insert_same_key. cbn [filter]. now rewrite IH.
Qed.
End SortMore.

Lemma Sleb_refl s : String.leb s s = true.
Proof.
  destruct (String.leb_total s s); assumption.
Qed.

Lemma arranged_chain l sort_by sort_order :
  chain (fun a b => if String.eqb sort_order "desc" then key_le sort_by b a
                    else key_le sort_by a b)
        (arranged l sort_by sort_order).
Proof.
  apply chain_of_neighbours. intros l1 a b l2 E.
  exact (arranged_neighbours _ _ _ _ _ _ _ E).
Qed.

Lemma arranged_idempotent l sort_by sort_order :
  arranged (arranged l sort_by sort_order) sort_by sort_order
  = arranged l sort_by sort_order.
Proof.
  unfold arranged.
  destruct (String.eqb sort_by "voteCount");
    [|destruct (String.eqb sort_by "answerCount");
      [|destruct (String.eqb sort_by "viewCount")]];
    apply sort_of_chain; apply sort_chain;
    first [exact Zleb_total | exact String.leb_total].
Qed.

Lemma arranged_same_key l sort_by sort_order x :
  filter (same_key sort_by x) (arranged l sort_by sort_order)
  = filter (same_key sort_by x) l.
Proof.
  unfold arranged, same_key.
  destruct (String.eqb sort_by "voteCount");
    [|destruct (String.eqb sort_by "answerCount");
      [|destruct (String.eqb sort_by "viewCount")]].
  - apply (sort_same_key Z.leb Questions.voteCount _ Z.eqb Z.eqb_eq
             Z.leb_refl (Questions.voteCount x)).
  - apply (sort_same_key Z.leb Questions.answerCount _ Z.eqb Z.eqb_eq
             Z.leb_refl (Questions.answerCount x)).
  - apply (sort_same_key Z.leb Questions.viewCount _ Z.eqb Z.eqb_eq
             Z.leb_refl (Questions.viewCount x)).
  - apply (sort_same_key String.leb Questions.createdAt _ String.eqb
             String.eqb_eq Sleb_refl (Questions.createdAt x)).
Qed.

Lemma slice_forward {A} (l : list A) start stop :
  0 <= start <= stop ->
  Py.slice l start stop
  = firstn (Z.to_nat (stop - start)) (skipn (Z.to_nat start) l).
Proof.
  intros H. unfold Py.slice, Py.clamp.
  destruct (Z.ltb_spec start 0); [lia|].
  destruct (Z.ltb_spec stop 0); [lia|].
  set (n := List.length l).
  destruct (Z_le_gt_dec (Z.of_nat n) start) as [Hs|Hs].
  - rewrite !skipn_all2 by (fold n; lia). now rewrite !firstn_nil.
  - rewrite (Z.min_l start) by lia.
    destruct (Z_le_gt_dec stop (Z.of_nat n)) as [He|He].
    + now rewrite Z.min_l by lia.
    + rewrite Z.min_r by lia.
      rewrite !firstn_all2; [reflexivity | |];
        rewrite length_skipn; fold n; lia.
Qed.

Lemma firstn_plus {A} (l : list A) (a b : nat) :
  firstn (a + b)%nat l = (firstn a l ++ firstn b (skipn a l))%list.
Proof.
  revert l. induction a as [|a IH]; intros l; [reflexivity|].
  destruct l as [|x l]; simpl; [now rewrite firstn_nil|]. now rewrite IH.
Qed.

Lemma chunks_concat {A} (l : list A) size m :
  List.concat
    (map (fun k => firstn size (skipn (k * size)%nat l)) (seq 0 m))
  = firstn (m * size)%nat l.
Proof.
  induction m as [|m IH]; [reflexivity|].
  rewrite seq_S, map_app, concat_app, IH. simpl.
  rewrite app_nil_r, (Nat.add_comm size), firstn_plus. reflexivity.
Qed.

(** ** More on listings *)

Lemma page_of_eq catalog page limit search sort_by sort_order :
  limit <> 0 ->
  page_of catalog page limit search sort_by sort_order
  = Py.slice (arranged (kept catalog search) sort_by sort_order)
      ((page - 1) * limit) ((page - 1) * limit + limit).
Proof.
  intros Hl. unfold page_of. now rewrite get_questions_eq.
Qed.

Lemma page_of_forward catalog page limit search sort_by sort_order :
  1 <= page -> 1 <= limit ->
  page_of catalog page limit search sort_by sort_order
  = firstn (Z.to_nat limit)
      (skipn (Z.to_nat (page - 1) * Z.to_nat limit)%nat
         (arranged (kept catalog search) sort_by sort_order)).
Proof.
  intros Hp Hl. rewrite page_of_eq by lia. rewrite slice_forward by nia.
  f_equal; [f_equal; lia | f_equal; nia].
Qed.

Lemma page_of_whole catalog big search sort_by sort_order :
  1 <= big ->
  Z.of_nat (List.length (filter (Questions.matches search) catalog)) <= big ->
  page_of catalog 1 big search sort_by sort_order
  = arranged (kept catalog search) sort_by sort_order.
Proof.
  intros Hb Ht. rewrite page_of_eq by lia.
  simpl ((1 - 1) * big). simpl (0 + big).
  apply slice_whole. now rewrite kept_total.
Qed.

Lemma fst_get_questions catalog page limit search sort_by sort_order :
  fst (Questions.get_questions catalog page limit search sort_by sort_order)
  = if Py.truthy search then catalog else arranged catalog sort_by sort_order.
Proof.
  destruct (Z.eq_dec limit 0) as [->|Hl].
  - now rewrite get_questions_zero_limit.
  - now rewrite get_questions_eq.
Qed.

(** The page of a listing with [page >= 1] and [limit >= 1] holds
    [limit] questions, or what is left of the filtered list from position
    [(page - 1) * limit] on when that is less. *)
Theorem listing_page_length catalog page limit search sort_by sort_order :
  1 <= page -> 1 <= limit ->
  exists body,
    snd (Questions.get_questions catalog page limit search sort_by sort_order)
      = Success 200 body
    /\ Z.of_nat (List.length (Questions.questions body))
       = Z.min limit
           (Z.max 0 (Questions.total (Questions.listing_pagination body)
                     - (page - 1) * limit)).
Proof.
  intros Hp Hl.
  pose proof (page_of_forward catalog page limit search sort_by sort_order
                Hp Hl) as E.
  rewrite page_of_eq in E by lia. rewrite get_questions_eq by lia.
  cbn zeta. eexists. split; [reflexivity|].
  cbn [Questions.questions Questions.listing_pagination Questions.total].
  rewrite E, length_firstn, length_skipn. nia.
Qed.

(** The pages 1, ..., [totalPages] of a listing with [limit >= 1], put end
    to end, are the one page that a limit at least as large as [total]
    returns: no question of the filtered list is left out or repeated. *)
Theorem listing_pages_tile catalog limit big search sort_by sort_order :
  let total :=
    Z.of_nat (List.length (filter (Questions.matches search) catalog)) in
  1 <= limit -> 1 <= big -> total <= big ->
  List.concat
    (map (fun k => page_of catalog (Z.of_nat k + 1) limit search sort_by
                     sort_order)
       (seq 0 (Z.to_nat ((total + limit - 1) / limit))))
  = page_of catalog 1 big search sort_by sort_order.
Proof.
  intros total Hl Hb Ht. rewrite page_of_whole by assumption.
  set (L := arranged (kept catalog search) sort_by sort_order).
  rewrite (map_ext _
             (fun k => firstn (Z.to_nat limit)
                         (skipn (k * Z.to_nat limit)%nat L))).
  - rewrite chunks_concat. apply firstn_all2.
    unfold L. rewrite kept_total. fold total.
    pose proof (page_count_is_ceiling total limit ltac:(lia)) as C.
    unfold is_ceiling in C. nia.
  - intros k. rewrite page_of_forward by lia. fold L.
    do 2 f_equal. lia.
Qed.

(** With [page >= 1] and [limit >= 1], [hasNext] is true exactly when the
    next page of the same listing is not empty. *)
Theorem listing_has_next catalog page limit search sort_by sort_order :
  1 <= page -> 1 <= limit ->
  exists body,
    snd (Questions.get_questions catalog page limit search sort_by sort_order)
      = Success 200 body
    /\ (Questions.hasNext (Questions.listing_pagination body) = true <->
        page_of catalog (page + 1) limit search sort_by sort_order <> []).
Proof.
  intros Hp Hl. rewrite get_questions_eq by lia. cbn zeta.
  eexists. split; [reflexivity|].
  cbn [Questions.listing_pagination Questions.hasNext].
  rewrite page_of_forward by lia.
  set (L := arranged (kept catalog search) sort_by sort_order).
  set (n := List.length L).
  pose proof (page_count_is_ceiling (Z.of_nat n) limit ltac:(lia)) as C.
  unfold is_ceiling in C. rewrite Z.ltb_lt.
  assert (page < (Z.of_nat n + limit - 1) / limit <->
          (Z.to_nat (page + 1 - 1) * Z.to_nat limit < n)%nat) as -> by nia.
  set (s := (Z.to_nat (page + 1 - 1) * Z.to_nat limit)%nat).
  split.
  - intros Hlt E. apply (f_equal (@List.length _)) in E.
    rewrite length_firstn, length_skipn in E. fold n in E. simpl in E. lia.
  - intros Hne. destruct (Nat.lt_ge_cases s n) as [H|H]; [exact H|].
    exfalso. apply Hne. rewrite skipn_all2 by (fold n; lia).
    apply firstn_nil.
Qed.

(** Page 0 of a listing with [limit >= 1] is answered 200 with an empty
    page and no previous page. *)
Theorem listing_page_zero catalog limit search sort_by sort_order :
  1 <= limit ->
  exists body,
    snd (Questions.get_questions catalog 0 limit search sort_by sort_order)
      = Success 200 body
    /\ Questions.questions body = []
    /\ Questions.hasPrev (Questions.listing_pagination body) = false.
Proof.
  intros Hl. rewrite get_questions_eq by lia. cbn zeta.
  eexists. split; [reflexivity|]. split; [|reflexivity].
  cbn [Questions.questions]. unfold Py.slice, Py.clamp.
  destruct (Z.ltb_spec ((0 - 1) * limit) 0); [|lia].
  destruct (Z.ltb_spec ((0 - 1) * limit + limit) 0); [lia|].
  match goal with |- firstn ?k _ = _ => replace k with 0%nat by lia end.
  reflexivity.
Qed.

(** A negative [limit] is not refused: page 1 is answered 200 and holds
    the whole filtered and sorted list less its last [- limit]
    questions. *)
Theorem listing_negative_limit catalog limit big search sort_by sort_order :
  let total :=
    Z.of_nat (List.length (filter (Questions.matches search) catalog)) in
  limit < 0 -> 1 <= big -> total <= big ->
  exists body,
    snd (Questions.get_questions catalog 1 limit search sort_by sort_order)
      = Success 200 body
    /\ Questions.questions body
       = firstn (Z.to_nat (total + limit))
           (page_of catalog 1 big search sort_by sort_order).
Proof.
  intros total Hl Hb Ht. rewrite page_of_whole by assumption.
  rewrite get_questions_eq by lia. cbn zeta.
  eexists. split; [reflexivity|]. cbn [Questions.questions].
  unfold Py.slice, Py.clamp. rewrite kept_total. fold total.
  simpl ((1 - 1) * limit). simpl (0 + limit).
  change (0 <? 0) with false. cbv iota.
  destruct (Z.ltb_spec limit 0); [|lia].
  rewrite Z.min_l by lia. simpl (Z.to_nat 0). cbn [skipn].
  f_equal. lia.
Qed.

(** The sort of a listing is stable: on a page that holds the whole
    filtered list, the questions with the same key as any given question
    come in the order they have in the catalog. *)
Theorem listing_stable catalog big search sort_by sort_order x :
  1 <= big ->
  Z.of_nat (List.length (filter (Questions.matches search) catalog)) <= big ->
  filter (same_key sort_by x)
    (page_of catalog 1 big search sort_by sort_order)
  = filter (same_key sort_by x) (filter (Questions.matches search) catalog).
Proof.
  intros Hb Ht. rewrite page_of_whole by assumption.
  now rewrite arranged_same_key, kept_filter.
Qed.

(** Once a listing has run, any further listing with the same search and
    sort parameters, whatever its page and limit, answers as it would have
    on the catalog before and leaves the catalog as the first listing left
    it. *)
Theorem listing_repeatable
  catalog page limit page' limit' search sort_by sort_order :
  let after :=
    fst (Questions.get_questions catalog page limit search sort_by
           sort_order) in
  Questions.get_questions after page' limit' search sort_by sort_order
  = (after,
     snd (Questions.get_questions catalog page' limit' search sort_by
            sort_order)).
Proof.
  cbv zeta. rewrite fst_get_questions.
  destruct (Py.truthy search) eqn:Es.
  - rewrite (surjective_pairing (Questions.get_questions catalog page' _ _ _ _)).
    cbn [snd]. now rewrite fst_get_questions, Es.
  - assert (forall c, kept c search = c) as Hk
      by (intros c; unfold kept; now rewrite Es).
    destruct (Z.eq_dec limit' 0) as [->|Hl].
    + rewrite !get_questions_zero_limit, Es. cbn [snd].
      now rewrite arranged_idempotent.
    + rewrite !get_questions_eq by assumption. rewrite Es, !Hk. cbn [snd].
      now rewrite arranged_idempotent.
Qed.

(** A listing with [limit = 0] is answered 500 (the page count divides by
    zero); with a search string the catalog is left as it is, and without
    one the catalog has by then been sorted by the requested key. *)
Theorem listing_limit_zero catalog page search sort_by sort_order :
  let r := Questions.get_questions catalog page 0 search sort_by
             sort_order in
  snd r = Failure 500 "integer division or modulo by zero"
  /\ (search <> "" -> fst r = catalog)
  /\ (search = "" ->
      Permutation catalog (fst r)
      /\ chain (fun a b => if String.eqb sort_order "desc"
                           then key_le sort_by b a
                           else key_le sort_by a b) (fst r)).
Proof.
  cbv zeta. rewrite get_questions_zero_limit. cbn [fst snd].
  split; [reflexivity|]. split.
  - intros Hs. destruct search; [congruence | reflexivity].
  - intros ->. simpl Py.truthy. cbv iota.
    split; [apply arranged_perm | apply arranged_chain].
Qed.

(** ** Creating, then fetching and listing *)

Lemma create_question_extends catalog data :
  fst (Questions.create_question catalog data) = catalog
  \/ exists q,
       Questions.create_question catalog data
         = ((catalog ++ [q])%list, Success 201 q)
       /\ Questions.id q = Z.of_nat (List.length catalog) + 1.
Proof.
  unfold Questions.create_question.
  destruct data as [d|]; [|now left].
  destruct (_ || _)%bool; [now left|].
  destruct (Questions.data_title d); [|now left].
  destruct (Questions.data_description d); [|now left].
  right. eexists. split; reflexivity.
Qed.

Lemma ids_distinct_inj (catalog : list Questions.question) a b :
  NoDup (map Questions.id catalog) ->
  In a catalog -> In b catalog -> Questions.id a = Questions.id b -> a = b.
Proof.
  induction catalog as [|w l IH]; simpl; [contradiction|].
  intros Hnd [<-|Ha] [<-|Hb] E; inversion Hnd as [|? ? Hnot Hnd']; subst.
  - reflexivity.
  - exfalso. apply Hnot. rewrite E. now apply in_map.
  - exfalso. apply Hnot. rewrite <- E. now apply in_map.
  - now apply IH.
Qed.

Lemma find_id_perm (l l' : list Questions.question) i :
  NoDup (map Questions.id l) -> Permutation l l' ->
  find (fun q => Questions.id q =? i) l
  = find (fun q => Questions.id q =? i) l'.
Proof.
  intros Hnd Hp.
  destruct (find _ l) as [q|] eqn:E; destruct (find _ l') as [q'|] eqn:E';
    try reflexivity.
  - apply find_some in E, E'. destruct E as (Hq & Hi), E' as (Hq' & Hi').
    apply Z.eqb_eq in Hi, Hi'. f_equal.
    apply (ids_distinct_inj l); try assumption; [|congruence].
    now apply (Permutation_in _ (Permutation_sym Hp)).
  - apply find_some in E. destruct E as (Hq & Hi).
    apply (Permutation_in _ Hp) in Hq.
    apply (find_none _ _ E') in Hq. simpl in Hq. congruence.
  - apply find_some in E'. destruct E' as (Hq & Hi).
    apply (Permutation_in _ (Permutation_sym Hp)) in Hq.
    apply (find_none _ _ E) in Hq. simpl in Hq. congruence.
Qed.

Lemma first_ids_In n i : In i (first_ids n) <-> 1 <= i <= Z.of_nat n.
Proof.
  unfold first_ids. rewrite in_map_iff. split.
  - intros (k & <- & Hk). apply in_seq in Hk. lia.
  - intros H. exists (Z.to_nat i). split; [lia|]. apply in_seq. lia.
Qed.

Lemma first_ids_S n :
  first_ids (S n) = (first_ids n ++ [Z.of_nat n + 1])%list.
Proof.
  unfold first_ids. rewrite seq_S, map_app. simpl. do 2 f_equal. lia.
Qed.

Lemma first_ids_NoDup n : NoDup (first_ids n).
Proof.
  induction n as [|n IH]; [constructor|].
  rewrite first_ids_S.
  apply (Permutation_NoDup (l := (Z.of_nat n + 1) :: first_ids n)).
  - apply Permutation_cons_append.
  - constructor; [|exact IH]. rewrite first_ids_In. lia.
Qed.

(** When no catalog question already has the id that comes next, fetching
    the id of a question just created returns that question. *)
Theorem create_then_get catalog data st q :
  (forall q', In q' catalog ->
              Questions.id q' <> Z.of_nat (List.length catalog) + 1) ->
  snd (Questions.create_question catalog data) = Success st q ->
  Questions.get_question (fst (Questions.create_question catalog data))
    (Questions.id q)
  = (fst (Questions.create_question catalog data), Success 200 q).
Proof.
  intros Hfresh Hc.
  destruct (create_question_extends catalog data) as [E|(q0 & E & Hid)].
  - exfalso. revert Hc E. unfold Questions.create_question.
    destruct data as [d|]; [|discriminate].
    destruct (_ || _)%bool; [discriminate|].
    destruct (Questions.data_title d); [|discriminate].
    destruct (Questions.data_description d); [|discriminate].
    cbn [fst snd]. intros _ E. apply (f_equal (@List.length _)) in E.
    rewrite length_app in E. simpl in E. lia.
  - rewrite E in Hc |- *. cbn [fst snd] in *. injection Hc as _ <-.
    unfold Questions.get_question. rewrite find_snoc.
    destruct (find _ catalog) as [q'|] eqn:F.
    + apply find_some in F. destruct F as (Hin & Hq').
      apply Z.eqb_eq in Hq'. apply Hfresh in Hin. congruence.
    + now rewrite Z.eqb_refl.
Qed.

(** A question that can be fetched can still be fetched, with the same
    answer, after any create request. *)
Theorem get_survives_create catalog data i st q :
  snd (Questions.get_question catalog i) = Success st q ->
  snd (Questions.get_question
         (fst (Questions.create_question catalog data)) i) = Success st q.
Proof.
  intros Hg.
  destruct (create_question_extends catalog data) as [->|(q0 & -> & _)];
    [exact Hg|].
  cbn [fst]. revert Hg. unfold Questions.get_question. rewrite find_snoc.
  destruct (find _ catalog); [trivial | discriminate].
Qed.

(** Creating and listing keep the ids of the catalog a rearrangement of
    1, ..., n for a catalog of n questions. *)
Theorem catalog_ids_kept
  catalog data page limit search sort_by sort_order :
  Permutation (map Questions.id catalog)
    (first_ids (List.length catalog)) ->
  (let c := fst (Questions.create_question catalog data) in
   Permutation (map Questions.id c) (first_ids (List.length c)))
  /\ (let c := fst (Questions.get_questions catalog page limit search
                      sort_by sort_order) in
      Permutation (map Questions.id c) (first_ids (List.length c))).
Proof.
  intros Hinv. cbv zeta. split.
  - destruct (create_question_extends catalog data) as [->|(q & -> & Hid)];
      [exact Hinv|].
    cbn [fst]. rewrite map_app, length_app, Nat.add_1_r, first_ids_S.
    simpl. rewrite Hid. now apply Permutation_app_tail.
  - rewrite fst_get_questions. destruct (Py.truthy search); [exact Hinv|].
    rewrite arranged_length.
    rewrite <- (Permutation_map Questions.id (arranged_perm catalog _ _)).
    exact Hinv.
Qed.

(** In a catalog whose ids are a rearrangement of 1, ..., n, fetching an
    id is answered 200 exactly for the ids from 1 to n, and 404 for every
    other id. *)
Theorem get_question_in_range catalog i :
  Permutation (map Questions.id catalog)
    (first_ids (List.length catalog)) ->
  (status_of (snd (Questions.get_question catalog i)) = 200 <->
   1 <= i <= Z.of_nat (List.length catalog))
  /\ (status_of (snd (Questions.get_question catalog i)) = 200
      \/ status_of (snd (Questions.get_question catalog i)) = 404).
Proof.
  intros Hinv. rewrite <- first_ids_In.
  unfold Questions.get_question.
  destruct (find _ catalog) as [q|] eqn:F; cbn [snd status_of].
  - split; [|now left]. split; [intros _|reflexivity].
    apply find_some in F. destruct F as (Hin & Hq). apply Z.eqb_eq in Hq.
    apply (Permutation_in _ Hinv). rewrite <- Hq. now apply in_map.
  - split; [|now right]. split; [discriminate|]. intros Hi. exfalso.
    apply (Permutation_in _ (Permutation_sym Hinv)) in Hi.
    apply in_map_iff in Hi. destruct Hi as (q & Hq & Hin).
    apply (find_none _ _ F) in Hin. simpl in Hin.
    rewrite Hq, Z.eqb_refl in Hin. discriminate.
Qed.

(** A question just created adds one to the [total] of the listings whose
    search string occurs in its title or description, and nothing to the
    [total] of the others. *)
Theorem create_then_list_total
  catalog data st q page limit search sort_by sort_order body body' :
  snd (Questions.create_question catalog data) = Success st q ->
  snd (Questions.get_questions catalog page limit search sort_by sort_order)
    = Success 200 body ->
  snd (Questions.get_questions
         (fst (Questions.create_question catalog data))
         page limit search sort_by sort_order) = Success 200 body' ->
  Questions.total (Questions.listing_pagination body')
  = Questions.total (Questions.listing_pagination body)
    + (if Questions.matches search q then 1 else 0).
Proof.
  intros Hc Hb Hb'.
  destruct (Z.eq_dec limit 0) as [->|Hl];
    [rewrite get_questions_zero_limit in Hb; discriminate|].
  rewrite get_questions_eq in Hb, Hb' by assumption. cbn zeta in Hb, Hb'.
  cbn [snd] in Hb, Hb'. injection Hb as <-. injection Hb' as <-.
  cbn [Questions.listing_pagination Questions.total].
  rewrite !kept_total.
  destruct (create_question_extends catalog data) as [E|(q0 & E & _)].
  - exfalso. revert Hc E. unfold Questions.create_question.
    destruct data as [d|]; [|discriminate].
    destruct (_ || _)%bool; [discriminate|].
    destruct (Questions.data_title d); [|discriminate].
    destruct (Questions.data_description d); [|discriminate].
    cbn [fst snd]. intros _ E. apply (f_equal (@List.length _)) in E.
    rewrite length_app in E. simpl in E. lia.
  - rewrite E in Hc |- *. cbn [fst snd] in *. injection Hc as _ <-.
    rewrite filter_app, length_app. simpl.
    destruct (Questions.matches search q0); simpl; lia.
Qed.

(** In a catalog with pairwise distinct ids, a listing does not change
    what fetching any id returns. *)
Theorem get_unaffected_by_listing
  catalog i page limit search sort_by sort_order :
  NoDup (map Questions.id catalog) ->
  snd (Questions.get_question
         (fst (Questions.get_questions catalog page limit search sort_by
                 sort_order)) i)
  = snd (Questions.get_question catalog i).
Proof.
  intros Hnd. rewrite fst_get_questions.
  destruct (Py.truthy search); [reflexivity|].
  unfold Questions.get_question.
  rewrite <- (find_id_perm catalog _ i Hnd (arranged_perm catalog _ _)).
  now destruct (find _ catalog).
Qed.

End MoreProperties.

(** ** The further theorems at the sample data *)

Section MoreSampleData.
#[local] Existing Instance Py.ascii_lower.

Lemma mock_users_emails_distinct : NoDup (map Auth.email Auth.mock_users).
Proof. simpl. constructor; [intros [] | constructor]. Qed.

Lemma mock_questions_ids :
  Permutation (map Questions.id Questions.mock_questions)
    (first_ids (List.length Questions.mock_questions)).
Proof. reflexivity. Qed.

Lemma mock_questions_ids_distinct :
  NoDup (map Questions.id Questions.mock_questions).
Proof.
  apply (Permutation_NoDup (Permutation_sym mock_questions_ids)).
  apply first_ids_NoDup.
Qed.

Lemma register_created_witness :
  exists u body,
    Auth.register Auth.mock_users
      (Some {| Auth.data_email := Some "new@stackit.com";
               Auth.data_password := Some "secret";
               Auth.data_name := Some "Newcomer" |})
    = ((Auth.mock_users ++ [u])%list, Success 201 body)
    /\ Auth.id u = 2.
Proof.
  eexists. eexists. split.
  - apply (register_created Auth.mock_users "new@stackit.com" "secret"
             "Newcomer"); try discriminate.
    intros u [<-|[]]. discriminate.
  - reflexivity.
Defined.

Lemma register_keeps_emails_distinct_witness :
  NoDup (map Auth.email Auth.mock_users)
  /\ NoDup (map Auth.email
              (fst (Auth.register Auth.mock_users
                      (Some {| Auth.data_email := Some "new@stackit.com";
                               Auth.data_password := Some "secret";
                               Auth.data_name := Some "Newcomer" |})))).
Proof.
  split; [exact mock_users_emails_distinct|].
  apply register_keeps_emails_distinct. exact mock_users_emails_distinct.
Defined.

Lemma register_keeps_ids_witness :
  map Auth.id Auth.mock_users = first_ids (List.length Auth.mock_users)
  /\ map Auth.id
       (fst (Auth.register Auth.mock_users
               (Some {| Auth.data_email := Some "new@stackit.com";
                        Auth.data_password := Some "secret";
                        Auth.data_name := Some "Newcomer" |})))
     = [1; 2].
Proof.
  split; [reflexivity|].
  rewrite (register_keeps_ids Auth.mock_users _); reflexivity.
Defined.

Lemma register_then_login_witness :
  let d := {| Auth.data_email := Some "new@stackit.com";
              Auth.data_password := Some "secret";
              Auth.data_name := Some "Newcomer" |} in
  exists body,
    snd (Auth.register Auth.mock_users (Some d)) = Success 201 body
    /\ Auth.login (fst (Auth.register Auth.mock_users (Some d))) (Some d)
       = (fst (Auth.register Auth.mock_users (Some d)), Success 200 body).
Proof.
  cbv zeta. eexists. split; [reflexivity|].
  apply (register_then_login Auth.mock_users _ 201). reflexivity.
Defined.

Lemma register_twice_conflict_witness :
  let d := {| Auth.data_email := Some "new@stackit.com";
              Auth.data_password := Some "secret";
              Auth.data_name := Some "Newcomer" |} in
  Auth.register (fst (Auth.register Auth.mock_users (Some d)))
    (Some {| Auth.data_email := Some "new@stackit.com";
             Auth.data_password := Some "other";
             Auth.data_name := Some "Impostor" |})
  = (fst (Auth.register Auth.mock_users (Some d)),
     Failure 409 "User with this email already exists").
Proof.
  cbv zeta.
  apply (register_twice_conflict Auth.mock_users "new@stackit.com" "secret"
           "Newcomer" "other" "Impostor" 201
           {| Auth.session_user :=
                [ ("id", Auth.VInt 2); ("email", Auth.VStr "new@stackit.com");
                  ("name", Auth.VStr "Newcomer"); ("reputation", Auth.VInt 0);
                  ("avatar", Auth.VNone) ];
              Auth.session_tokens := Auth.mock_tokens |});
    [reflexivity | discriminate | discriminate].
Defined.

Lemma login_iff_credentials_witness :
  status_of
    (snd (Auth.login Auth.mock_users
            (Some {| Auth.data_email := Some "demo@stackit.com";
                     Auth.data_password := Some "demo123";
                     Auth.data_name := None |}))) = 200
  /\ status_of
       (snd (Auth.login Auth.mock_users
               (Some {| Auth.data_email := Some "Demo@stackit.com";
                        Auth.data_password := Some "demo123";
                        Auth.data_name := None |}))) = 401.
Proof.
  split.
  - apply (login_iff_credentials Auth.mock_users "demo@stackit.com"
             "demo123" None mock_users_emails_distinct);
      [discriminate | discriminate|].
    eexists. split; [left; reflexivity|]. split; reflexivity.
  - destruct (login_iff_credentials Auth.mock_users "Demo@stackit.com"
                "demo123" None mock_users_emails_distinct)
      as (_ & [H|H] & Hiff); [discriminate | discriminate | | exact H].
    exfalso. apply Hiff in H. destruct H as (u & [<-|[]] & He & _).
    discriminate He.
Defined.

Lemma login_survives_register_witness :
  let d := {| Auth.data_email := Some "demo@stackit.com";
              Auth.data_password := Some "demo123";
              Auth.data_name := None |} in
  exists body,
    snd (Auth.login Auth.mock_users (Some d)) = Success 200 body
    /\ snd (Auth.login
              (fst (Auth.register Auth.mock_users
                      (Some {| Auth.data_email := Some "new@stackit.com";
                               Auth.data_password := Some "secret";
                               Auth.data_name := Some "Newcomer" |})))
              (Some d)) = Success 200 body.
Proof.
  cbv zeta. eexists. split; [reflexivity|].
  apply login_survives_register. reflexivity.
Defined.

Lemma get_questions_frame_search_witness :
  "react" <> ""
  /\ fst (Questions.get_questions Questions.mock_questions 1 20 "react"
            "voteCount" "asc") = Questions.mock_questions.
Proof.
  split; [discriminate|].
  apply get_questions_frame_search. discriminate.
Defined.

Lemma listing_page_length_witness :
  exists body,
    snd (Questions.get_questions Questions.mock_questions 2 2 ""
           "viewCount" "desc") = Success 200 body
    /\ Z.of_nat (List.length (Questions.questions body))
       = Z.min 2 (Z.max 0 (Questions.total
                             (Questions.listing_pagination body)
                           - (2 - 1) * 2)).
Proof.
  apply listing_page_length; lia.
Defined.

Lemma listing_pages_tile_witness :
  map Questions.id
    (List.concat
       (map (fun k => page_of Questions.mock_questions (Z.of_nat k + 1) 2
                        "" "voteCount" "desc")
          (seq 0 2)))
  = map Questions.id
      (page_of Questions.mock_questions 1 20 "" "voteCount" "desc").
Proof.
  rewrite <- (listing_pages_tile Questions.mock_questions 2 20 ""
                "voteCount" "desc");
    [vm_compute; reflexivity | lia | lia | vm_compute; discriminate].
Defined.

Lemma listing_has_next_witness :
  exists body,
    snd (Questions.get_questions Questions.mock_questions 1 2 "" "voteCount"
           "desc") = Success 200 body
    /\ (Questions.hasNext (Questions.listing_pagination body) = true <->
        page_of Questions.mock_questions (1 + 1) 2 "" "voteCount" "desc"
          <> []).
Proof.
  apply listing_has_next; lia.
Defined.

Lemma listing_page_zero_witness :
  exists body,
    snd (Questions.get_questions Questions.mock_questions 0 2 "" "createdAt"
           "desc") = Success 200 body
    /\ Questions.questions body = []
    /\ Questions.hasPrev (Questions.listing_pagination body) = false.
Proof.
  apply listing_page_zero. lia.
Defined.

Lemma listing_negative_limit_witness :
  exists body,
    snd (Questions.get_questions Questions.mock_questions 1 (-1) ""
           "voteCount" "desc") = Success 200 body
    /\ map Questions.id (Questions.questions body) = [3; 1].
Proof.
  destruct (listing_negative_limit Questions.mock_questions (-1) 20 ""
              "voteCount" "desc") as (body & Hb & Hq);
    [lia | lia | vm_compute; discriminate |].
  exists body. split; [exact Hb|]. rewrite Hq. reflexivity.
Defined.

Lemma listing_stable_witness :
  match Questions.mock_questions with
  | x :: _ =>
      filter (same_key "voteCount" x)
        (page_of Questions.mock_questions 1 20 "a" "voteCount" "desc")
      = filter (same_key "voteCount" x)
          (filter (Questions.matches "a") Questions.mock_questions)
  | [] => True
  end.
Proof.
  cbv iota beta delta [Questions.mock_questions].
  apply listing_stable; [lia | vm_compute; discriminate].
Defined.

Lemma create_then_get_witness :
  let data := Some {| Questions.data_title := Some "Title";
                      Questions.data_description := Some "text";
                      Questions.data_tags := None |} in
  exists q,
    snd (Questions.create_question Questions.mock_questions data)
      = Success 201 q
    /\ Questions.get_question
         (fst (Questions.create_question Questions.mock_questions data))
         (Questions.id q)
       = (fst (Questions.create_question Questions.mock_questions data),
          Success 200 q).
Proof.
  cbv zeta. eexists. split; [reflexivity|].
  apply (create_then_get Questions.mock_questions _ 201); [|reflexivity].
  intros q [<-|[<-|[<-|[]]]]; simpl; lia.
Defined.

Lemma get_survives_create_witness :
  exists q,
    snd (Questions.get_question Questions.mock_questions 2) = Success 200 q
    /\ snd (Questions.get_question
              (fst (Questions.create_question Questions.mock_questions
                      (Some {| Questions.data_title := Some "Title";
                               Questions.data_description := Some "text";
                               Questions.data_tags := None |}))) 2)
       = Success 200 q.
Proof.
  eexists. split; [reflexivity|].
  apply get_survives_create. reflexivity.
Defined.

Lemma catalog_ids_kept_witness :
  Permutation (map Questions.id Questions.mock_questions)
    (first_ids (List.length Questions.mock_questions))
  /\ Permutation
       (map Questions.id
          (fst (Questions.get_questions Questions.mock_questions 1 20 ""
                  "voteCount" "desc")))
       [1; 2; 3].
Proof.
  split; [exact mock_questions_ids|].
  apply (proj2 (catalog_ids_kept Questions.mock_questions None 1 20 ""
                  "voteCount" "desc" mock_questions_ids)).
Defined.

Lemma get_question_in_range_witness :
  status_of (snd (Questions.get_question Questions.mock_questions 3)) = 200
  /\ status_of (snd (Questions.get_question Questions.mock_questions 4))
     = 404.
Proof.
  split.
  - apply (get_question_in_range Questions.mock_questions 3
             mock_questions_ids). simpl. lia.
  - destruct (get_question_in_range Questions.mock_questions 4
                mock_questions_ids) as (Hiff & [H|H]); [|exact H].
    apply Hiff in H. simpl in H. lia.
Defined.

Lemma create_then_list_total_witness :
  let data := Some {| Questions.data_title := Some "React hooks";
                      Questions.data_description := Some "text";
                      Questions.data_tags := None |} in
  exists body body',
    snd (Questions.get_questions Questions.mock_questions 1 20 "react"
           "createdAt" "desc") = Success 200 body
    /\ snd (Questions.get_questions
              (fst (Questions.create_question Questions.mock_questions data))
              1 20 "react" "createdAt" "desc") = Success 200 body'
    /\ Questions.total (Questions.listing_pagination body') 
       = Questions.total (Questions.listing_pagination body) + 1.
Proof.
  cbv zeta. eexists. eexists.
  split; [vm_compute; reflexivity|]. split; [vm_compute; reflexivity|].
  etransitivity.
  - eapply (create_then_list_total Questions.mock_questions
              (Some {| Questions.data_title := Some "React hooks";
                       Questions.data_description := Some "text";
                       Questions.data_tags := None |}) 201 _ 1 20 "react"
              "createdAt" "desc"); reflexivity.
  - reflexivity.
Defined.

Lemma get_unaffected_by_listing_witness :
  NoDup (map Questions.id Questions.mock_questions)
  /\ snd (Questions.get_question
            (fst (Questions.get_questions Questions.mock_questions 1 20 ""
                    "voteCount" "desc")) 1)
     = snd (Questions.get_question Questions.mock_questions 1).
Proof.
  split; [exact mock_questions_ids_distinct|].
  apply get_unaffected_by_listing. exact mock_questions_ids_distinct.
Defined.

Lemma register_outcomes_witness :
  status_of (snd (Auth.register_request Auth.mock_users (NotObject "list")))
    = 500
  /\ status_of (snd (Auth.register_request Auth.mock_users (Parsed None)))
     <> 500.
Proof.
  split.
  - apply (proj2 (register_outcomes Auth.mock_users (NotObject "list"))).
    right. now exists "list".
  - intros E.
    apply (proj2 (register_outcomes Auth.mock_users (Parsed None))) in E.
    destruct E as [(m & E)|(t & E)]; discriminate.
Defined.

Lemma get_profile_first_user_witness :
  Auth.mock_users <> []
  /\ snd (Auth.get_profile
            (fst (Auth.register Auth.mock_users
                    (Some {| Auth.data_email := Some "new@stackit.com";
                             Auth.data_password := Some "secret";
                             Auth.data_name := Some "Newcomer" |}))))
     = snd (Auth.get_profile Auth.mock_users).
Proof.
  split; [discriminate|].
  apply (proj1 (proj2 (proj2 (get_profile_first_user Auth.mock_users _)))).
  discriminate.
Defined.

Lemma listing_limit_zero_witness :
  snd (Questions.get_questions Questions.mock_questions 1 0 "react"
         "voteCount" "desc")
    = Failure 500 "integer division or modulo by zero"
  /\ fst (Questions.get_questions Questions.mock_questions 1 0 "react"
            "voteCount" "desc") = Questions.mock_questions.
Proof.
  destruct (listing_limit_zero Questions.mock_questions 1 "react"
              "voteCount" "desc") as (H & Hs & _).
  split; [exact H | apply Hs; discriminate].
Defined.

End MoreSampleData.
